(** * The DNA fingerprint engine of [backend/dna_utils.py]

    A shallow embedding of the module's seven functions together with
    the parts of the Python runtime they lean on ([int(s, 16)], slicing,
    [round], [json.dumps], SHA-256, the [random] module), followed by the
    properties of the engine that the specification states. *)

From Stdlib Require Import ZArith NArith List Lia Bool Ascii String.
From Stdlib Require Import Floats Uint63 DecimalString DecimalPos.
From stdpp Require Import base list sorting gmap.
Import ListNotations.

Set Warnings "-inexact-float,-register-all".
Local Open Scope Z_scope.

(** ** Python values *)

(** A Python [str] is a sequence of Unicode code points. *)
Abbreviation char := N (only parsing).
Abbreviation pystr := (list N) (only parsing).

(** String literals of the source are written as Rocq strings. *)
Definition str_of (s : string) : pystr :=
  map N_of_ascii (list_ascii_of_string s).

(** [s * n] on strings. *)
Definition str_mul (s : pystr) (n : nat) : pystr := concat (repeat s n).

(** The objects a caller can hand to the module, what [Any] ranges over:
    the values [json.dumps] knows, and any object of another type (a set,
    bytes, an instance of a class), of which only the name of the type
    matters here.  Dictionaries keep their insertion order and have
    string keys. *)
Inductive pyobj :=
| PyNone
| PyBool (b : bool)
| PyInt (z : Z)
| PyFloat (f : float)
| PyStr (s : pystr)
| PyList (l : list pyobj)
| PyDict (d : list (pystr * pyobj))
| PyOther (type_name : string).

Inductive exn :=
| ValueError (msg : pystr)
| IndexError (msg : pystr)
| TypeError (msg : pystr)
| UnicodeEncodeError (msg : pystr)
| RecursionError (msg : pystr).

(** The outcome of a call: a returned value or a raised exception. *)
Inductive outcome (A : Type) :=
| Returns (a : A)
| Raises (e : exn).
Arguments Returns {A} a.
Arguments Raises {A} e.

(** ** The interpreter state the module can observe: the [random] module

    The generator is an oracle: an infinite tape of raw draws and a
    cursor.  Quantifying over tapes quantifies over every outcome of the
    random source. *)
Record world := World { tape : nat -> N; cursor : nat }.

(** A call runs in a world and leaves a world behind. *)
Definition M (A : Type) := world -> outcome A * world.

Definition ret {A} (a : A) : M A := fun w => (Returns a, w).
Definition raise {A} (e : exn) : M A := fun w => (Raises e, w).
Definition bind {A B} (m : M A) (k : A -> M B) : M B :=
  fun w => match m w with
           | (Returns a, w') => k a w'
           | (Raises e, w') => (Raises e, w')
           end.

Notation "x <- m ;; k" := (bind m (fun x => k))
  (at level 100, m at next level, right associativity).

(** A computation that needs no world: its outcome, in any world. *)
Definition lift {A} (x : outcome A) : M A := fun w => (x, w).

(** Sequencing on outcomes: the first exception wins. *)
Definition and_then {A B} (x : outcome A) (k : A -> outcome B) : outcome B :=
  match x with
  | Returns a => k a
  | Raises e => Raises e
  end.

(** [[f(x) for x in l]], left to right, up to the first exception. *)
Fixpoint collect {A B} (f : A -> outcome B) (l : list A) : outcome (list B) :=
  match l with
  | [] => Returns []
  | x :: l' =>
      and_then (f x) (fun y =>
      and_then (collect f l') (fun ys => Returns (y :: ys)))
  end.

(** [random.random()]: 53 random bits scaled into [0.0, 1.0). *)
Definition random_random : M float :=
  fun w =>
    let k := (Z.of_N (tape w (cursor w)) mod 9007199254740992)%Z in
    (Returns (PrimFloat.of_uint63 (Uint63.of_Z k) / 9007199254740992)%float,
     World (tape w) (S (cursor w))).

(** [random.choice(seq)]: [seq[randbelow(len(seq))]]. *)
Definition random_choice (seq : pystr) : M char :=
  fun w =>
    let w' := World (tape w) (S (cursor w)) in
    match seq with
    | [] => (Raises (IndexError (str_of "Cannot choose from an empty sequence")), w)
    | c :: _ =>
        (Returns (nth (N.to_nat (tape w (cursor w) mod N.of_nat (length seq))) seq c), w')
    end.

(** ** [int(s, 16)] on a string *)

(** The facts of the Unicode character database that [int] and
    [str.isdigit] consult for a code point above ASCII; the table itself
    is not part of the repository, so it is a parameter. *)
Record unicode_db := UnicodeDB {
  to_decimal : char -> option N;   (* Py_UNICODE_TODECIMAL *)
  is_uspace : char -> bool;        (* Py_UNICODE_ISSPACE *)
  is_udigit : char -> bool         (* Py_UNICODE_ISDIGIT *)
}.

(** ASCII white space, [Py_ISSPACE]. *)
Definition Py_ISSPACE (c : char) : bool :=
  ((9 <=? c) && (c <=? 13) || (c =? 32))%N.

(** [_PyLong_DigitValue]: 37 for anything that is not a letter or digit. *)
Definition digit_value (c : char) : N :=
  (if (48 <=? c) && (c <=? 57) then c - 48
   else if (97 <=? c) && (c <=? 122) then c - 97 + 10
   else if (65 <=? c) && (c <=? 90) then c - 65 + 10
   else 37)%N.

Fixpoint skip_spaces (s : pystr) : pystr :=
  match s with
  | c :: s' => if Py_ISSPACE c then skip_spaces s' else s
  | [] => []
  end.

(** The digit loop of base 16: digits and single underscores between
    them.  [prev] is the previous character (0 at the start).  Returns
    the value read and the unread rest, or [None] on a doubled or
    trailing underscore. *)
Fixpoint scan_digits (prev : char) (acc : Z) (s : pystr) : option (Z * pystr) :=
  let finish := if (prev =? 95)%N then None else Some (acc, s) in
  match s with
  | c :: s' =>
      if (c =? 95)%N then
        if (prev =? 95)%N then None else scan_digits c acc s'
      else if (digit_value c <? 16)%N then
        scan_digits c (acc * 16 + Z.of_N (digit_value c)) s'
      else finish
  | [] => finish
  end.

Section Engine.
Variable ucd : unicode_db.

(** [Py_UNICODE_ISSPACE]: a fixed table for ASCII (the blanks of
    [Py_ISSPACE] and the separators 28 to 31), the database above it. *)
Definition Py_UNICODE_ISSPACE (c : char) : bool :=
  (if c <? 128 then (9 <=? c) && (c <=? 13) || (28 <=? c) && (c <=? 32)
   else is_uspace ucd c)%N.

(** [Py_UNICODE_TODECIMAL]: in ASCII the ten digits and nothing else, the
    database above it. *)
Definition Py_UNICODE_TODECIMAL (c : char) : option N :=
  (if c <? 128 then (if (48 <=? c) && (c <=? 57) then Some (c - 48) else None)
   else to_decimal ucd c)%N.

(** Characters below 127 are kept; of the others, white space becomes a
    blank and a decimal digit its ASCII digit; the first character that
    is neither is replaced by [?] and ends the buffer. *)
Fixpoint transform_decimal_and_space (s : pystr) : pystr :=
  match s with
  | [] => []
  | ch :: s' =>
      if (ch <? 127)%N then ch :: transform_decimal_and_space s'
      else if Py_UNICODE_ISSPACE ch then 32%N :: transform_decimal_and_space s'
      else match Py_UNICODE_TODECIMAL ch with
           | Some d => (48 + d)%N :: transform_decimal_and_space s'
           | None => [63%N]
           end
  end.

Definition invalid_literal : exn :=
  ValueError (str_of "invalid literal for int() with base 16").

(** [int(s, 16)]: optional white space, optional sign, optional
    [0x]/[0X] (and one underscore after it), digits with single
    underscores between them, optional white space, end of string. *)
Definition int_base16 (s : pystr) : outcome Z :=
  let s1 := skip_spaces (transform_decimal_and_space s) in
  let '(sign, s2) :=
    match s1 with
    | 43%N :: r => (1, r)
    | 45%N :: r => (-1, r)
    | _ => (1, s1)
    end in
  let s3 :=
    match s2 with
    | 48%N :: x :: r =>
        if ((x =? 120) || (x =? 88))%N
        then match r with 95%N :: r' => r' | _ => r end
        else s2
    | _ => s2
    end in
  match s3 with
  | 95%N :: _ => Raises invalid_literal
  | _ =>
      match scan_digits 0%N 0 s3 with
      | None => Raises invalid_literal
      | Some (z, rest) =>
          if (length rest =? length s3)%nat then Raises invalid_literal
          else match skip_spaces rest with
               | [] => Returns (sign * z)
               | _ :: _ => Raises invalid_literal
               end
      end
  end.

(** ** [validate_dna] *)
Definition validate_dna (dna : pyobj) : bool :=
  match dna with
  | PyStr s =>
      if negb (length s =? 64)%nat then false
      else match int_base16 s with
           | Returns _ => true
           | Raises _ => false
           end
  | _ => false
  end.

(** ** Slicing: [s[:k]] and [s[k:]] for any integer [k] *)
Definition slice_bound (s : pystr) (k : Z) : nat :=
  let len := Z.of_nat (length s) in
  Z.to_nat (if k <? 0 then Z.max (len + k) 0 else Z.min k len).
Definition slice_to (s : pystr) (k : Z) : pystr := take (slice_bound s k) s.
Definition slice_from (s : pystr) (k : Z) : pystr := drop (slice_bound s k) s.

Definition invalid_dna_format : exn := ValueError (str_of "Invalid DNA format").

(** The string inside an object that [validate_dna] has let through;
    slicing or listing anything else is never reached. *)
Definition expect_str (o : pyobj) : M pystr :=
  match o with
  | PyStr s => ret s
  | _ => raise (TypeError (str_of "expected str"))
  end.

(** ** [remix_dna] *)
Definition remix_dna (dna_a dna_b : pyobj) (crossover_point : Z) : M pystr :=
  if negb (validate_dna dna_a) || negb (validate_dna dna_b)
  then raise invalid_dna_format
  else
    let crossover_point :=
      if (crossover_point <? 1) || (crossover_point >=? 64) then 32
      else crossover_point in
    a <- expect_str dna_a ;;
    b <- expect_str dna_b ;;
    let remixed := slice_to a crossover_point ++ slice_from b crossover_point in
    ret remixed.

(** ** [mutate_dna] *)
Definition hex_chars : pystr := str_of "0123456789abcdef".

(** One turn of [for i in range(len(dna_list))]. *)
Definition mutate_step (mutation_rate : float) (dna_list : pystr) (i : nat)
  : M pystr :=
  u <- random_random ;;
  if (u <? mutation_rate)%float
  then c <- random_choice hex_chars ;; ret (<[i := c]> dna_list)
  else ret dna_list.

Fixpoint for_each {A} (body : A -> nat -> M A) (range : list nat) (a : A) : M A :=
  match range with
  | [] => ret a
  | i :: range' => a' <- body a i ;; for_each body range' a'
  end.

Definition mutate_dna (dna : pyobj) (mutation_rate : float) : M pystr :=
  if negb (validate_dna dna) then raise invalid_dna_format
  else
    dna_list <- expect_str dna ;;
    dna_list <- for_each (mutate_step mutation_rate)
                         (seq 0 (length dna_list)) dna_list ;;
    ret dna_list.

(** ** Floats

    [float(n)] for an integer; exact below 2^53 in absolute value. *)
Definition float_of_Z (z : Z) : float :=
  if z <? 0 then (- PrimFloat.of_uint63 (Uint63.of_Z (- z)))%float
  else PrimFloat.of_uint63 (Uint63.of_Z z).

(** [n / d] rounded to the nearest integer, ties to the even one
    ([d] positive). *)
Definition div_half_even (n d : Z) : Z :=
  let q := n / d in
  match (2 * (n mod d) ?= d) with
  | Lt => q
  | Gt => q + 1
  | Eq => if Z.even q then q else q + 1
  end.

(** [round(x, ndigits)] on a float: the exact binary value of [x] is
    rounded to [ndigits] decimals, ties to even, and the decimal
    obtained is read back as the nearest float.  Exact as long as
    [|x| * 10^ndigits] stays below 2^53, which covers every call of
    the module (values up to 100, two decimals at most). *)
Definition py_round (x : float) (ndigits : nat) : float :=
  match Prim2SF x with
  | S754_finite sign m e =>
      let p := 10 ^ Z.of_nat ndigits in
      let scaled :=
        if 0 <=? e then Z.pos m * 2 ^ e * p
        else div_half_even (Z.pos m * p) (2 ^ (- e)) in
      let r := (float_of_Z scaled / float_of_Z p)%float in
      if sign then (- r)%float else r
  | _ => x
  end.

(** ** [decode_dna] *)

(** [s[i]] on a string. *)
Definition str_getitem (s : pystr) (i : Z) : M pystr :=
  let len := Z.of_nat (length s) in
  let j := if i <? 0 then i + len else i in
  if (j <? 0) || (len <=? j)
  then raise (IndexError (str_of "string index out of range"))
  else ret [nth (Z.to_nat j) s 0%N].

(** [sum(ord(c) for c in s)] *)
Definition ord_sum (s : pystr) : Z :=
  fold_left (fun acc c => acc + Z.of_N c) s 0.

Definition model_map : gmap pystr pystr :=
  list_to_map
    [ (str_of "0", str_of "dolphin-phi:latest");
      (str_of "1", str_of "llama2:latest");
      (str_of "2", str_of "mistral:latest");
      (str_of "3", str_of "gpt-4") ].

Definition decode_dna (dna : pystr) : M pyobj :=
  let char_sum := ord_sum dna in
  let temp := (0.1 + float_of_Z (char_sum mod 20) * 0.1)%float in
  let top_p := (0.1 + float_of_Z (char_sum mod 9) * 0.1)%float in
  first <- str_getitem dna 0 ;;
  let model := default (str_of "dolphin-phi:latest") (model_map !! first) in
  ret (PyDict
         [ (str_of "temperature", PyFloat (py_round temp 1));
           (str_of "top_p", PyFloat (py_round top_p 1));
           (str_of "model", PyStr model);
           (str_of "dna", PyStr dna);
           (str_of "note", PyStr (str_of "Parameters estimated from DNA pattern")) ]).

(** ** [analyze_dna_compatibility] *)

(** [sum(c1 != c2 for c1, c2 in zip(a, b))] *)
Definition differences_of (a b : pystr) : Z :=
  fold_left (fun acc '(c1, c2) => acc + (if (c1 =? c2)%N then 0 else 1))
            (zip a b) 0.

(** [sum(1 for c in s if p(c))] *)
Definition count_where (p : char -> bool) (s : pystr) : Z :=
  fold_left (fun acc c => if p c then acc + 1 else acc) s 0.

(** [c in letters] for a one-character string [c]. *)
Definition char_in (letters : pystr) (c : char) : bool :=
  existsb (N.eqb c) letters.

(** [c.isdigit()]: the ASCII digits, and above ASCII whatever the
    character database says. *)
Definition isdigit (c : char) : bool :=
  (if c <? 128 then (48 <=? c) && (c <=? 57) else is_udigit ucd c)%N.

Definition patterns (s : pystr) : pyobj :=
  PyDict
    [ (str_of "vowels", PyInt (count_where (char_in (str_of "aeiou")) s));
      (str_of "consonants",
       PyInt (count_where (char_in (str_of "bcdfghjklmnpqrstvwxyz")) s));
      (str_of "numbers", PyInt (count_where isdigit s)) ].

Definition analyze_dna_compatibility (dna_a dna_b : pyobj) : M pyobj :=
  if negb (validate_dna dna_a) || negb (validate_dna dna_b)
  then ret (PyDict [ (str_of "error", PyStr (str_of "Invalid DNA format")) ])
  else
    a <- expect_str dna_a ;;
    b <- expect_str dna_b ;;
    let differences := differences_of a b in
    let similarity := (float_of_Z (64 - differences) / 64 * 100)%float in
    let patterns_a := patterns a in
    let patterns_b := patterns b in
    ret (PyDict
           [ (str_of "similarity_percentage", PyFloat (py_round similarity 2));
             (str_of "differences", PyInt differences);
             (str_of "recommended_crossover",
              PyInt (if (50 <? similarity)%float then 32 else 16));
             (str_of "patterns_a", patterns_a);
             (str_of "patterns_b", patterns_b);
             (str_of "compatibility",
              PyStr (if (70 <? similarity)%float then str_of "High"
                     else if (40 <? similarity)%float then str_of "Medium"
                     else str_of "Low")) ]).

End Engine.

(** ** SHA-256 ([hashlib.sha256])

    Words are integers below 2^32 and bytes integers below 2^8, with the
    wrap-around written out. *)
Module SHA256.

Definition add32 (x y : Z) : Z := (x + y) mod 2 ^ 32.
Definition not32 (x : Z) : Z := 2 ^ 32 - 1 - x mod 2 ^ 32.
Definition rotr (n x : Z) : Z :=
  Z.lor (Z.shiftr x n) (Z.shiftl x (32 - n) mod 2 ^ 32).
Definition shr (n x : Z) : Z := Z.shiftr x n.

Definition Ch (x y z : Z) : Z := Z.lxor (Z.land x y) (Z.land (not32 x) z).
Definition Maj (x y z : Z) : Z :=
  Z.lxor (Z.lxor (Z.land x y) (Z.land x z)) (Z.land y z).
Definition bsig0 (x : Z) : Z := Z.lxor (Z.lxor (rotr 2 x) (rotr 13 x)) (rotr 22 x).
Definition bsig1 (x : Z) : Z := Z.lxor (Z.lxor (rotr 6 x) (rotr 11 x)) (rotr 25 x).
Definition ssig0 (x : Z) : Z := Z.lxor (Z.lxor (rotr 7 x) (rotr 18 x)) (shr 3 x).
Definition ssig1 (x : Z) : Z := Z.lxor (Z.lxor (rotr 17 x) (rotr 19 x)) (shr 10 x).

(** The first 64 primes. *)
Definition is_prime (n : nat) : bool :=
  forallb (fun d => negb (n mod d =? 0)%nat) (seq 2 (n - 2)).
Definition primes : list Z :=
  Eval vm_compute in map Z.of_nat (List.filter is_prime (seq 2 310)).

(** The integer part of the cube root of a number below 2^108, one bit
    at a time from the top. *)
Definition cube_root (n : Z) : Z :=
  fold_left (fun r i => let r' := r + 2 ^ i in if r' * r' * r' <=? n then r' else r)
            (map Z.of_nat (rev (seq 0 36))) 0.

(** The round constants: the first 32 bits of the fractional parts of
    the cube roots of the primes. *)
Definition K : list Z :=
  Eval vm_compute in map (fun p => cube_root (p * 2 ^ 96) mod 2 ^ 32) primes.

(** The eight working words. *)
Record state := State { ha : Z; hb : Z; hc : Z; hd : Z;
                        he : Z; hf : Z; hg : Z; hh : Z }.

(** The initial words: the first 32 bits of the fractional parts of the
    square roots of the first eight primes. *)
Definition frac_sqrt (i : nat) : Z := Z.sqrt (nth i primes 0 * 2 ^ 64) mod 2 ^ 32.
Definition H0 : state :=
  Eval vm_compute in
    State (frac_sqrt 0) (frac_sqrt 1) (frac_sqrt 2) (frac_sqrt 3)
          (frac_sqrt 4) (frac_sqrt 5) (frac_sqrt 6) (frac_sqrt 7).

(** Big-endian bytes of [x], [n] of them. *)
Fixpoint be_bytes (n : nat) (x : Z) : list Z :=
  match n with
  | O => []
  | S n' => (x / 256 ^ Z.of_nat n') mod 256 :: be_bytes n' x
  end.

(** The message, a 1 bit, zeros up to 56 modulo 64, and the length in
    bits on 8 bytes. *)
Definition pad (msg : list Z) : list Z :=
  let len := Z.of_nat (length msg) in
  msg ++ [0x80] ++ repeat 0 (Z.to_nat ((55 - len) mod 64))
      ++ be_bytes 8 (8 * len).

Definition word_of (b : list Z) : Z :=
  fold_left (fun acc x => acc * 256 + x) b 0.

(** The sixteen words of the 64-byte block number [i]. *)
Definition block_words (bytes : list Z) (i : nat) : list Z :=
  map (fun j => word_of (take 4 (drop (64 * i + 4 * j) bytes))) (seq 0 16).

Definition schedule_step (w : list Z) (t : nat) : list Z :=
  let at_ (k : nat) := nth (t - k) w 0 in
  w ++ [add32 (add32 (ssig1 (at_ 2%nat)) (at_ 7%nat))
              (add32 (ssig0 (at_ 15%nat)) (at_ 16%nat))].

Definition schedule (w16 : list Z) : list Z :=
  fold_left schedule_step (seq 16 48) w16.

Definition round (s : state) (kw : Z * Z) : state :=
  let '(k, w) := kw in
  let t1 := add32 (add32 (add32 (hh s) (bsig1 (he s)))
                         (add32 (Ch (he s) (hf s) (hg s)) k)) w in
  let t2 := add32 (bsig0 (ha s)) (Maj (ha s) (hb s) (hc s)) in
  State (add32 t1 t2) (ha s) (hb s) (hc s)
        (add32 (hd s) t1) (he s) (hf s) (hg s).

Definition compress (bytes : list Z) (h : state) (i : nat) : state :=
  let s := fold_left round (zip K (schedule (block_words bytes i))) h in
  State (add32 (ha h) (ha s)) (add32 (hb h) (hb s))
        (add32 (hc h) (hc s)) (add32 (hd h) (hd s))
        (add32 (he h) (he s)) (add32 (hf h) (hf s))
        (add32 (hg h) (hg s)) (add32 (hh h) (hh s)).

Definition sha256 (msg : list Z) : state :=
  let bytes := pad msg in
  fold_left (compress bytes) (seq 0 (length bytes / 64)) H0.

Definition hex_digit (n : Z) : N :=
  Z.to_N (if n <? 10 then 48 + n else 87 + n).

Definition word_hex (w : Z) : list N :=
  map (fun sh => hex_digit ((w / 2 ^ sh) mod 16)) [28; 24; 20; 16; 12; 8; 4; 0].

(** [.hexdigest()] *)
Definition hexdigest (s : state) : list N :=
  word_hex (ha s) ++ word_hex (hb s) ++ word_hex (hc s) ++ word_hex (hd s)
  ++ word_hex (he s) ++ word_hex (hf s) ++ word_hex (hg s) ++ word_hex (hh s).

End SHA256.

(** ** [str.encode()]: UTF-8, which refuses surrogates *)
Definition utf8_char (c : N) : option (list Z) :=
  let z := Z.of_N c in
  if z <? 0x80 then Some [z]
  else if z <? 0x800 then Some [0xC0 + z / 64; 0x80 + z mod 64]
  else if (0xD800 <=? z) && (z <=? 0xDFFF) then None
  else if z <? 0x10000 then
    Some [0xE0 + z / 4096; 0x80 + (z / 64) mod 64; 0x80 + z mod 64]
  else if z <? 0x110000 then
    Some [0xF0 + z / 262144; 0x80 + (z / 4096) mod 64;
          0x80 + (z / 64) mod 64; 0x80 + z mod 64]
  else None.

Fixpoint str_encode (s : list N) : M (list Z) :=
  match s with
  | [] => ret []
  | c :: s' =>
      match utf8_char c with
      | None => raise (UnicodeEncodeError (str_of "surrogates not allowed"))
      | Some bs => rest <- str_encode s' ;; ret (bs ++ rest)
      end
  end.

(** ** [json.dumps(obj, sort_keys=True)] *)
Section Fingerprint.
(** Three things the interpreter decides, none of them part of the
    repository: [float.__repr__], the shortest decimal that reads back as
    the same float; [sys.get_int_max_str_digits()], the longest integer
    that may be printed, 0 for no limit (4300 by default since Python
    3.11); and how many containers, one inside the other, the encoder can
    still enter inside the outermost one before the recursion limit is
    hit. *)
Variable float_repr : float -> string.
Variable int_max_str_digits : nat.
Variable nesting_limit : nat.

Definition hex4 (n : N) : list N :=
  map (fun sh => SHA256.hex_digit ((Z.of_N n / 2 ^ sh) mod 16)) [12; 8; 4; 0].

Definition backslash_u (n : N) : list N := str_of "\u" ++ hex4 n.

(** One character under [ensure_ascii]: only the printable ASCII
    characters other than the quote and the backslash stand for
    themselves. *)
Definition escape_char (c : N) : list N :=
  (if c =? 34 then str_of "\" ++ [34]
   else if c =? 92 then str_of "\\"
   else if c =? 10 then str_of "\n"
   else if c =? 13 then str_of "\r"
   else if c =? 9 then str_of "\t"
   else if c =? 8 then str_of "\b"
   else if c =? 12 then str_of "\f"
   else if (32 <=? c) && (c <=? 126) then [c]
   else if c <? 0x10000 then backslash_u c
   else
     let n := c - 0x10000 in
     backslash_u (N.lor 0xD800 (N.land (N.shiftr n 10) 0x3FF))
     ++ backslash_u (N.lor 0xDC00 (N.land n 0x3FF)))%N.

Definition encode_basestring_ascii (s : list N) : list N :=
  [34%N] ++ flat_map escape_char s ++ [34%N].

Definition floatstr (o : float) : list N :=
  (if negb (o =? o) then str_of "NaN"
   else if o =? infinity then str_of "Infinity"
   else if o =? neg_infinity then str_of "-Infinity"
   else str_of (float_repr o))%float.

(** [int.__repr__]: the decimal digits, with a minus sign for a negative
    number.  A text of more than 640 characters is checked against the
    limit, the sign not counted. *)
Definition PY_LONG_MAX_STR_DIGITS_THRESHOLD : nat := 640.

Definition digits_exceeded : exn :=
  ValueError
    (str_of "Exceeds the limit ("
     ++ str_of (DecimalString.NilZero.string_of_uint (Nat.to_uint int_max_str_digits))
     ++ str_of " digits) for integer string conversion; "
     ++ str_of "use sys.set_int_max_str_digits() to increase the limit").

Definition intstr (z : Z) : outcome (list N) :=
  let text := str_of (DecimalString.NilZero.string_of_int (Z.to_int z)) in
  let strlen := length text in
  let negative := if (z <? 0)%Z then 1%nat else 0%nat in
  let strlen_nosign := (strlen - negative)%nat in
  if (PY_LONG_MAX_STR_DIGITS_THRESHOLD <? strlen)%nat
     && (0 <? int_max_str_digits)%nat
     && (int_max_str_digits <? strlen_nosign)%nat
  then Raises digits_exceeded
  else Returns text.

(** [sep.join(parts)] *)
Fixpoint join (sep : list N) (parts : list (list N)) : list N :=
  match parts with
  | [] => []
  | [p] => p
  | p :: rest => p ++ sep ++ join sep rest
  end.

(** [a <= b] on strings: lexicographic by code point. *)
Fixpoint str_le (a b : list N) : bool :=
  match a, b with
  | [], _ => true
  | _ :: _, [] => false
  | x :: a', y :: b' =>
      (if x <? y then true else if y <? x then false else str_le a' b')%N
  end.

(** [sorted(d.items())], stable; the keys decide. *)
Fixpoint insert_item {V} (kv : list N * V) (l : list (list N * V))
  : list (list N * V) :=
  match l with
  | [] => [kv]
  | kv' :: l' =>
      if str_le kv'.1 kv.1 then kv' :: insert_item kv l'
      else kv :: l
  end.

Definition sorted_items {V} (d : list (list N * V)) : list (list N * V) :=
  fold_left (fun acc kv => insert_item kv acc) d [].

Definition not_serializable (type_name : string) : exn :=
  TypeError (str_of "Object of type " ++ str_of type_name
             ++ str_of " is not JSON serializable").

Definition too_deep : exn :=
  RecursionError
    (str_of "maximum recursion depth exceeded while encoding a JSON object").

(** The encoder.  [depth] is the number of containers it can still
    enter.  The items of a dictionary are sorted, then encoded in that
    order; the first exception ends the encoding. *)
Fixpoint json_encode (depth : nat) (o : pyobj) {struct depth} : outcome (list N) :=
  match o with
  | PyNone => Returns (str_of "null")
  | PyBool true => Returns (str_of "true")
  | PyBool false => Returns (str_of "false")
  | PyInt z => intstr z
  | PyFloat f => Returns (floatstr f)
  | PyStr s => Returns (encode_basestring_ascii s)
  | PyOther type_name => Raises (not_serializable type_name)
  | PyList l =>
      match depth with
      | O => Raises too_deep
      | S depth' =>
          and_then (collect (json_encode depth') l) (fun parts =>
          Returns (str_of "[" ++ join (str_of ", ") parts ++ str_of "]"))
      end
  | PyDict d =>
      match depth with
      | O => Raises too_deep
      | S depth' =>
          and_then
            (collect
               (fun kv =>
                  and_then (json_encode depth' kv.2) (fun v =>
                  Returns (encode_basestring_ascii kv.1 ++ str_of ": " ++ v)))
               (sorted_items d)) (fun parts =>
          Returns (str_of "{" ++ join (str_of ", ") parts ++ str_of "}"))
      end
  end.

(** [json.dumps(obj, sort_keys=True)]: the outermost container can be
    entered. *)
Definition json_dumps (obj : pyobj) : outcome (list N) :=
  json_encode (S nesting_limit) obj.

(** ** [generate_dna] *)
Definition generate_dna (prompt : list N) (temperature top_p : float)
           (model : list N) : M (list N) :=
  let data :=
    PyDict [ (str_of "prompt", PyStr prompt);
             (str_of "temperature", PyFloat temperature);
             (str_of "top_p", PyFloat top_p);
             (str_of "model", PyStr model);
             (str_of "version", PyStr (str_of "1.0")) ] in
  json_str <- lift (json_dumps data) ;;
  bytes <- str_encode json_str ;;
  let hash_hex := SHA256.hexdigest (SHA256.sha256 bytes) in
  let dna := slice_to hash_hex 64 in
  ret dna.

(** ** [generate_persona_dna] *)
Definition generate_persona_dna (persona_name : list N)
           (traits : list (list N * pyobj)) : M (list N) :=
  let data :=
    PyDict [ (str_of "persona", PyStr persona_name);
             (str_of "traits", PyDict traits);
             (str_of "type", PyStr (str_of "persona_dna"));
             (str_of "version", PyStr (str_of "1.0")) ] in
  json_str <- lift (json_dumps data) ;;
  bytes <- str_encode json_str ;;
  ret (slice_to (SHA256.hexdigest (SHA256.sha256 bytes)) 64).

End Fingerprint.

(** ** The vocabulary of the specification *)

(** A hexadecimal digit as the specification has it: [0]-[9], [a]-[f]. *)
Definition lower_hex (c : N) : bool :=
  ((48 <=? c) && (c <=? 57) || (97 <=? c) && (c <=? 102))%N.

(** A well-formed identifier: 64 characters, every one a hex digit. *)
Definition is_identifier (s : list N) : bool :=
  (length s =? 64)%nat && forallb lower_hex s.

(** A fragment of the character database, enough to run examples:
    the full-width digits, and the blanks above ASCII. *)
Definition ucd_sample : unicode_db :=
  UnicodeDB
    (fun c => if (0xFF10 <=? c) && (c <=? 0xFF19) then Some (c - 0xFF10) else None)%N
    (fun c => existsb (N.eqb c) [0x85; 0xA0; 0x1680; 0x2028; 0x2029; 0x202F; 0x205F; 0x3000]%N
              || (0x2000 <=? c) && (c <=? 0x200A))%N
    (fun c => (0xFF10 <=? c) && (c <=? 0xFF19))%N.

(** A random source to run examples on. *)
Definition world_sample : world :=
  World (fun n => N.of_nat n * 1234567891234567 + 987654321)%N 0.

(** The identifiers used in examples. *)
Definition dna_ones : list N := str_mul (str_of "1") 64.
Definition dna_twos : list N := str_mul (str_of "2") 64.
(** One hex digit and 63 blanks: 64 characters that [int(s, 16)] reads
    as the number 10. *)
Definition dna_blanks : list N := str_of "a" ++ str_mul (str_of " ") 63.

(** The Hamming distance of two strings, position by position. *)
Fixpoint hamming (a b : list N) : Z :=
  match a, b with
  | x :: a', y :: b' => (if (x =? y)%N then 0 else 1) + hamming a' b'
  | _, _ => 0
  end.

(** The sum of the character codes of a string, character by
    character. *)
Fixpoint code_sum (s : list N) : Z :=
  match s with
  | [] => 0
  | c :: s' => Z.of_N c + code_sum s'
  end.

(** The model that [decode_dna] reads off a first character. *)
Definition model_for (c : N) : list N :=
  (if c =? 48 then str_of "dolphin-phi:latest"
   else if c =? 49 then str_of "llama2:latest"
   else if c =? 50 then str_of "mistral:latest"
   else if c =? 51 then str_of "gpt-4"
   else str_of "dolphin-phi:latest")%N.

(** [float.__repr__] on the three floats of the examples. *)
Definition float_repr_sample (f : float) : string :=
  if (f =? 0.7)%float then "0.7"%string
  else if (f =? 0.9)%float then "0.9"%string
  else "0.5"%string.

(** A float that is not below zero: a zero, a NaN, or positive. *)
Definition sf_not_neg (x : spec_float) : Prop :=
  match x with
  | S754_zero _ | S754_nan => True
  | S754_infinity s | S754_finite s _ _ => s = false
  end.

(** A character below the surrogates, as every byte-sized one is. *)
Definition narrow (c : N) : Prop := (c < 256)%N.

(** The order of dictionary items under [sort_keys]. *)
Definition key_le {V} (kv1 kv2 : list N * V) : Prop := str_le kv1.1 kv2.1 = true.

(** Case analysis over a finite table of integers. *)
Ltac by_table H :=
  vm_compute in H;
  repeat (destruct H as [<- | H]; [vm_compute; repeat split; reflexivity|]);
  contradiction.

(** A hex digit of either case. *)
Definition hex_any (c : N) : bool :=
  lower_hex c || ((65 <=? c) && (c <=? 70))%N.

(** A character that no literal of base 16 contains: not a blank, not a
    hex digit, not a sign, not an underscore, not the [x] of a prefix. *)
Definition foreign (c : N) : bool :=
  negb (Py_ISSPACE c || (digit_value c <? 16)%N
        || existsb (N.eqb c) [43; 45; 95; 120; 88]%N).

(** The crossover point [remix_dna] uses once it has replaced a point
    outside [1, 63] by 32. *)
Definition effective_point (crossover_point : Z) : nat :=
  Z.to_nat (if (crossover_point <? 1) || (crossover_point >=? 64) then 32
            else crossover_point).

(** The dictionary [analyze_dna_compatibility] returns on valid input. *)
Definition compatibility_report (similarity_percentage : float)
           (differences recommended_crossover : Z)
           (patterns_a patterns_b : pyobj) (compatibility : list N) : pyobj :=
  PyDict
    [ (str_of "similarity_percentage", PyFloat similarity_percentage);
      (str_of "differences", PyInt differences);
      (str_of "recommended_crossover", PyInt recommended_crossover);
      (str_of "patterns_a", patterns_a);
      (str_of "patterns_b", patterns_b);
      (str_of "compatibility", PyStr compatibility) ].

(** ** The inline fingerprint of [trip_server.py]

    [generate_dna] of the server: the first 100 characters of the prompt,
    the two floats as [str] prints them, the model and the time of the
    call, joined by hyphens, encoded and hashed.  [float_str] is [str] on
    a float (the same text as [float.__repr__]) and [now] is what
    [datetime.now().isoformat()] returns at the call; neither is part of
    the repository. *)
Definition server_generate_dna (float_str : float -> string) (now : string)
           (prompt : list N) (temp top_p : float) (model : list N) : M (list N) :=
  let data_string :=
    slice_to prompt 100 ++ str_of "-" ++ str_of (float_str temp) ++ str_of "-"
    ++ str_of (float_str top_p) ++ str_of "-" ++ model ++ str_of "-"
    ++ str_of now in
  bytes <- str_encode data_string ;;
  ret (SHA256.hexdigest (SHA256.sha256 bytes)).

(** A character [encode()] accepts: a code point that is no surrogate. *)
Definition encodable (c : N) : bool :=
  match utf8_char c with Some _ => true | None => false end.

(** The number of decimal digits of an integer, its sign left out. *)
Definition decimal_digits (z : Z) : nat :=
  Decimal.nb_digits (N.to_uint (Z.abs_N z)).

(** An integer the interpreter agrees to print: its text, sign and all,
    has at most 640 characters, or there is no limit, or the integer has
    no more digits than the limit. *)
Definition int_within (limit : nat) (z : Z) : bool :=
  (decimal_digits z + (if (z <? 0)%Z then 1 else 0) <=? 640)%nat
  || (limit =? 0)%nat
  || (decimal_digits z <=? limit)%nat.

(** What [json.dumps] can serialise when it can enter [depth] containers
    one inside the other: [None], booleans, floats, strings, integers
    within the digit limit, and lists and dictionaries of such values
    nested no deeper than [depth]; no object of another type. *)
Fixpoint serialisable (limit depth : nat) (o : pyobj) {struct o} : bool :=
  match o with
  | PyNone | PyBool _ | PyFloat _ | PyStr _ => true
  | PyInt z => int_within limit z
  | PyOther _ => false
  | PyList l =>
      match depth with
      | O => false
      | S depth' => forallb (serialisable limit depth') l
      end
  | PyDict d =>
      match depth with
      | O => false
      | S depth' =>
          forallb (fun kv => match kv with (_, v) => serialisable limit depth' v end) d
      end
  end.

(** The three exceptions the encoder raises. *)
Definition serialisation_error (limit : nat) (e : exn) : Prop :=
  (exists type_name, e = not_serializable type_name)
  \/ e = too_deep \/ e = digits_exceeded limit.

(** The settings of the examples: the default digit limit, and room for
    a thousand nested containers. *)
Definition digits_sample : nat := 4300.
Definition nesting_sample : nat := 1000.

(** * Properties *)

(** ** The monad *)

Lemma bind_raises {A B} (m : M A) (k : A -> M B) e w w' :
  m w = (Raises e, w') -> bind m k w = (Raises e, w').
Proof. unfold bind. intros ->. reflexivity. Qed.

Lemma bind_returns {A B} (m : M A) (k : A -> M B) a w w' :
  m w = (Returns a, w') -> bind m k w = k a w'.
Proof. unfold bind. intros ->. reflexivity. Qed.

(** ** [int(s, 16)] on hex digits *)

Lemma lower_hex_range c :
  lower_hex c = true -> (48 <= c <= 57 \/ 97 <= c <= 102)%N.
Proof.
  unfold lower_hex. intros H.
  apply orb_true_iff in H as [H|H]; apply andb_true_iff in H as [H1 H2];
    apply N.leb_le in H1, H2; lia.
Qed.

Lemma digit_value_lower_hex c :
  lower_hex c = true -> (digit_value c <? 16)%N = true /\ (c =? 95)%N = false.
Proof.
  intros H%lower_hex_range. unfold digit_value. split.
  - apply N.ltb_lt.
    destruct (N.leb_spec 48 c), (N.leb_spec c 57), (N.leb_spec 97 c),
      (N.leb_spec c 122); simpl; lia.
  - apply N.eqb_neq. lia.
Qed.

Lemma lower_hex_not_space c : lower_hex c = true -> Py_ISSPACE c = false.
Proof.
  intros H%lower_hex_range. unfold Py_ISSPACE.
  destruct (N.leb_spec 9 c), (N.leb_spec c 13), (N.eqb_spec c 32); simpl; lia.
Qed.

Lemma scan_digits_hex s : forall prev acc,
  forallb lower_hex s = true -> (prev =? 95)%N = false ->
  exists z, scan_digits prev acc s = Some (z, []).
Proof.
  induction s as [|c s IH]; intros prev acc Hs Hp; simpl.
  - rewrite Hp. eauto.
  - simpl in Hs. apply andb_true_iff in Hs as [Hc Hs].
    destruct (digit_value_lower_hex c Hc) as [-> ->].
    apply IH; [exact Hs | apply (digit_value_lower_hex c Hc)].
Qed.

Section EngineFacts.
Variable ucd : unicode_db.

Lemma transform_hex s :
  forallb lower_hex s = true -> transform_decimal_and_space ucd s = s.
Proof.
  induction s as [|c s IH]; simpl; [reflexivity|].
  intros [Hc Hs]%andb_true_iff.
  apply lower_hex_range in Hc.
  replace (c <? 127)%N with true by (symmetry; apply N.ltb_lt; lia).
  now rewrite IH.
Qed.

(** Every non-empty string of hex digits is a literal of base 16. *)
Lemma int_base16_hex s :
  s <> [] -> forallb lower_hex s = true ->
  exists z, int_base16 ucd s = Returns z.
Proof.
  intros Hne Hs. unfold int_base16. rewrite (transform_hex s Hs).
  destruct s as [|c s]; [congruence|]. clear Hne.
  pose proof Hs as Hall.
  simpl in Hs. apply andb_true_iff in Hs as [Hc Hs].
  simpl skip_spaces. rewrite (lower_hex_not_space c Hc).
  assert (Hsign : match c :: s with
                  | 43%N :: r => (1, r) | 45%N :: r => (-1, r) | _ => (1, c :: s)
                  end = (1, c :: s)).
  { apply lower_hex_range in Hc.
    destruct c as [|p]; [lia|]. do 6 (destruct p as [p|p|]; try reflexivity; try lia). }
  rewrite Hsign.
  assert (Hpre : match c :: s with
                 | 48%N :: x :: r =>
                     if ((x =? 120) || (x =? 88))%N
                     then match r with 95%N :: r' => r' | _ => r end
                     else c :: s
                 | _ => c :: s
                 end = c :: s).
  { destruct s as [|x r].
    - destruct c as [|p]; [reflexivity|].
      do 6 (destruct p as [p|p|]; try reflexivity).
    - simpl in Hs. apply andb_true_iff in Hs as [Hx _].
      apply lower_hex_range in Hx.
      assert (Hx1 : (x =? 120)%N = false) by (apply N.eqb_neq; lia).
      assert (Hx2 : (x =? 88)%N = false) by (apply N.eqb_neq; lia).
      rewrite Hx1, Hx2. simpl orb. cbv iota.
      destruct c as [|p]; [reflexivity|].
      do 6 (destruct p as [p|p|]; try reflexivity). }
  rewrite Hpre.
  destruct (scan_digits_hex (c :: s) 0%N 0 Hall eq_refl) as [z Hz].
  rewrite Hz.
  assert (Hc95 : (c =? 95)%N = false) by apply (digit_value_lower_hex c Hc).
  destruct c as [|p]; [apply lower_hex_range in Hc; lia|].
  do 7 (destruct p as [p|p|]; try (simpl; eauto; fail); try discriminate Hc95).
Qed.

(** Whatever passes [validate_dna] is a string of 64 characters. *)
Lemma validate_dna_str o :
  validate_dna ucd o = true -> exists s, o = PyStr s /\ length s = 64%nat.
Proof.
  destruct o; simpl; try discriminate.
  destruct (Nat.eqb_spec (length s) 64); simpl; [eauto | discriminate].
Qed.

(** Every well-formed identifier passes [validate_dna]. *)
Lemma validate_dna_identifier s :
  is_identifier s = true -> validate_dna ucd (PyStr s) = true.
Proof.
  unfold is_identifier. intros [Hlen Hs]%andb_true_iff.
  simpl. rewrite Hlen. simpl.
  destruct (int_base16_hex s) as [z ->]; auto.
  intros ->. discriminate.
Qed.

End EngineFacts.

(** ** The random source *)

Lemma binary_round_aux_not_neg m e l :
  sf_not_neg (binary_round_aux prec emax false m e l).
Proof.
  unfold binary_round_aux.
  destruct (shr_fexp prec emax m e l) as [mrs' e'].
  destruct (shr_fexp prec emax _ e' loc_Exact) as [mrs'' e''].
  destruct (shr_m mrs''); simpl; auto.
  destruct (Z.leb e'' (Z.sub emax prec)); simpl; auto.
Qed.

Lemma of_uint63_not_neg n : sf_not_neg (Prim2SF (PrimFloat.of_uint63 n)).
Proof.
  rewrite FloatAxioms.of_uint63_spec.
  destruct (Uint63.to_Z_bounded n) as [Hn _].
  destruct (Uint63.to_Z n) as [|p|p]; simpl; [exact I | | lia].
  unfold binary_round.
  destruct (shl_align p 0 _) as [mz ez].
  apply binary_round_aux_not_neg.
Qed.

Lemma SFdiv_not_neg x my ey :
  sf_not_neg x ->
  sf_not_neg (SFdiv prec emax x (S754_finite false my ey)).
Proof.
  destruct x as [s| s | |s mx ex]; simpl; intros H; subst; auto.
  destruct (SFdiv_core_binary prec emax (Z.pos mx) ex (Z.pos my) ey) as [[mz ez] lz].
  apply binary_round_aux_not_neg.
Qed.

Lemma SFltb_zero_not_neg x :
  sf_not_neg x -> SFltb x (S754_zero false) = false.
Proof. destruct x; simpl; intros H; subst; reflexivity. Qed.

(** [random.random()] always returns, advances the tape by one draw, and
    its value is never below [0.0]. *)
Lemma random_random_not_below_zero w :
  exists u, random_random w = (Returns u, World (tape w) (S (cursor w)))
            /\ (u <? 0)%float = false.
Proof.
  eexists. split; [reflexivity|].
  rewrite FloatAxioms.ltb_spec, FloatAxioms.div_spec.
  change (Prim2SF 0) with (S754_zero false).
  change (Prim2SF 9007199254740992) with (S754_finite false 4503599627370496 1).
  apply SFltb_zero_not_neg, SFdiv_not_neg, of_uint63_not_neg.
Qed.

(** [random.choice(hex_chars)] always returns one of the 16 digits. *)
Lemma random_choice_hex w :
  exists c, random_choice hex_chars w = (Returns c, World (tape w) (S (cursor w)))
            /\ lower_hex c = true.
Proof.
  unfold random_choice.
  change hex_chars with [48; 49; 50; 51; 52; 53; 54; 55; 56; 57;
                         97; 98; 99; 100; 101; 102]%N.
  eexists. split; [reflexivity|].
  cbn [length]. 
  assert (H : (N.to_nat (tape w (cursor w) mod N.of_nat 16) < 16)%nat).
  { pose proof (N.mod_upper_bound (tape w (cursor w)) (N.of_nat 16)). lia. }
  revert H. generalize (N.to_nat (tape w (cursor w) mod N.of_nat 16)). intros n H.
  do 16 (destruct n as [|n]; [reflexivity|]). lia.
Qed.

(** ** [mutate_dna]: the loop *)

(** The loop never raises and keeps the length; every character of the
    result satisfies whatever the input's characters and the sixteen
    digits satisfy. *)
Lemma for_each_mutate_step rate (P : N -> Prop) range : forall l w,
  Forall P l -> (forall c, lower_hex c = true -> P c) ->
  exists l' w', for_each (mutate_step rate) range l w = (Returns l', w')
                /\ length l' = length l /\ Forall P l'.
Proof.
  induction range as [|i range IH]; intros l w Hl HP; simpl.
  - unfold ret. eauto.
  - destruct (random_random_not_below_zero w) as (u & Hu & _).
    assert (Hstep : exists l1 w1,
               mutate_step rate l i w = (Returns l1, w1)
               /\ length l1 = length l /\ Forall P l1).
    { unfold mutate_step. rewrite (bind_returns _ _ _ _ _ Hu).
      destruct (u <? rate)%float.
      - destruct (random_choice_hex (World (tape w) (S (cursor w))))
          as (c & Hc & Hhex).
        rewrite (bind_returns _ _ _ _ _ Hc). unfold ret.
        eexists _, _. split; [reflexivity|].
        split; [apply length_insert | apply Forall_insert; auto].
      - unfold ret. eauto. }
    destruct Hstep as (l1 & w1 & Hstep & Hlen1 & Hall1).
    destruct (IH l1 w1 Hall1 HP) as (l' & w' & Heq & Hlen & Hall).
    exists l', w'. rewrite (bind_returns _ _ _ _ _ Hstep).
    split; [exact Heq|]. split; [congruence | exact Hall].
Qed.

(** With a rate of [0.0] no position is touched; one draw is consumed per
    position. *)
Lemma for_each_mutate_step_zero range : forall l w,
  for_each (mutate_step 0) range l w
  = (Returns l, World (tape w) (cursor w + length range)).
Proof.
  induction range as [|i range IH]; intros l w; simpl.
  - unfold ret. destruct w; simpl. do 2 f_equal. lia.
  - destruct (random_random_not_below_zero w) as (u & Hu & Hlt).
    assert (Hstep : mutate_step 0 l i w
                    = (Returns l, World (tape w) (S (cursor w)))).
    { unfold mutate_step. rewrite (bind_returns _ _ _ _ _ Hu).
      rewrite Hlt. reflexivity. }
    rewrite (bind_returns _ _ _ _ _ Hstep), IH. simpl. do 2 f_equal. lia.
Qed.

(** ** [validate_dna] *)

Lemma validate_dna_accepts_blanks_aux ucd :
  validate_dna ucd (PyStr dna_blanks) = true.
Proof. vm_compute. reflexivity. Qed.

(** C3 (the code departs from it).  The claim: [validate_dna] holds
    exactly of the strings of 64 characters that are all hex digits
    [0-9a-f].  The code accepts whatever [int(s, 16)] reads: the string
    made of the digit [a] and 63 blanks has 64 characters, is not made of
    hex digits, and passes. *)
Theorem validate_dna_accepts_blanks : forall ucd,
  validate_dna ucd (PyStr dna_blanks) = true
  /\ length dna_blanks = 64%nat
  /\ forallb lower_hex dna_blanks = false.
Proof. intros ucd. vm_compute. auto. Qed.

(** Other strings of 64 characters that pass though some character is
    not a hex digit: a sign, a [0x] prefix, an underscore between digits,
    upper-case digits, a full-width digit, a blank above ASCII. *)
Example validate_dna_accepts_more :
  Forall (fun s => validate_dna ucd_sample (PyStr s) = true
                   /\ is_identifier s = false)
    [ str_of "-" ++ str_mul (str_of "a") 63;
      str_of "0x" ++ str_mul (str_of "a") 62;
      str_of "a_" ++ str_mul (str_of "a") 62;
      str_mul (str_of "A") 64;
      [0xFF11%N] ++ str_mul (str_of "a") 63;
      [0x3000%N] ++ str_mul (str_of "a") 63 ].
Proof. repeat constructor. Qed.

(** What does hold of [validate_dna]: it is a total boolean function, it
    rejects what is not a string and any string whose length is not 64,
    and it accepts every well-formed identifier. *)
Lemma validate_dna_sound_part ucd o :
  (forall s, o <> PyStr s) \/ (exists s, o = PyStr s /\ length s <> 64%nat) ->
  validate_dna ucd o = false.
Proof.
  intros [H | (s & -> & H)].
  - destruct o; try reflexivity. now destruct (H s).
  - simpl. destruct (Nat.eqb_spec (length s) 64); [contradiction | reflexivity].
Qed.

(** ** [remix_dna] *)

Lemma slice_bound_in_range (s : list N) k :
  0 <= k <= Z.of_nat (length s) -> slice_bound s k = Z.to_nat k.
Proof.
  intros H. unfold slice_bound.
  destruct (Z.ltb_spec k 0); [lia|]. f_equal. lia.
Qed.

Lemma remix_dna_valid ucd a b cp w :
  validate_dna ucd (PyStr a) = true -> validate_dna ucd (PyStr b) = true ->
  remix_dna ucd (PyStr a) (PyStr b) cp w
  = (Returns (let k := if (cp <? 1) || (cp >=? 64) then 32 else cp in
              take (Z.to_nat k) a ++ drop (Z.to_nat k) b), w).
Proof.
  intros Ha Hb. unfold remix_dna. rewrite Ha, Hb. simpl.
  destruct (validate_dna_str ucd _ Ha) as (a' & [= <-] & Hla).
  destruct (validate_dna_str ucd _ Hb) as (b' & [= <-] & Hlb).
  unfold bind, ret, slice_to, slice_from.
  rewrite !slice_bound_in_range; [reflexivity | |];
    rewrite ?Hla, ?Hlb; destruct ((cp <? 1) || (cp >=? 64)) eqn:E; lia.
Qed.

(** C4.  For [A] and [B] that pass [validate_dna]: both are strings of
    64 characters; with the crossover point in [1, 63] the result is the
    first [crossover_point] characters of [A] followed by the characters
    of [B] from that position on (through position 63), a string of 64
    characters; with the crossover point outside [1, 63] the call behaves
    as with 32. *)
Theorem remix_dna_crossover : forall ucd A B cp w,
  validate_dna ucd A = true -> validate_dna ucd B = true ->
  exists a b,
    A = PyStr a /\ B = PyStr b /\ length a = 64%nat /\ length b = 64%nat
    /\ (1 <= cp <= 63 ->
        remix_dna ucd A B cp w
        = (Returns (take (Z.to_nat cp) a ++ drop (Z.to_nat cp) b), w)
        /\ length (take (Z.to_nat cp) a ++ drop (Z.to_nat cp) b) = 64%nat)
    /\ (~ 1 <= cp <= 63 ->
        remix_dna ucd A B cp w = remix_dna ucd A B 32 w).
Proof.
  intros ucd A B cp w HA HB.
  destruct (validate_dna_str ucd A HA) as (a & -> & Hla).
  destruct (validate_dna_str ucd B HB) as (b & -> & Hlb).
  exists a, b. repeat split; auto.
  - rewrite remix_dna_valid by assumption. simpl.
    destruct (Z.ltb_spec cp 1); [lia|].
    destruct (Z.geb_spec cp 64); [lia|]. reflexivity.
  - rewrite length_app, length_take, length_drop. lia.
  - intros Hout. rewrite !remix_dna_valid by assumption. simpl.
    destruct (Z.ltb_spec cp 1); [reflexivity|].
    destruct (Z.geb_spec cp 64); [reflexivity|]. lia.
Qed.

Lemma remix_dna_crossover_witness :
  remix_dna ucd_sample (PyStr dna_ones) (PyStr dna_twos) 32 world_sample
  = (Returns (str_mul (str_of "1") 32 ++ str_mul (str_of "2") 32), world_sample)
  /\ remix_dna ucd_sample (PyStr dna_ones) (PyStr dna_twos) 100 world_sample
     = remix_dna ucd_sample (PyStr dna_ones) (PyStr dna_twos) 32 world_sample.
Proof.
  destruct (remix_dna_crossover ucd_sample (PyStr dna_ones) (PyStr dna_twos)
              32 world_sample eq_refl eq_refl)
    as (a & b & [= <-] & [= <-] & _ & _ & Hin & _).
  destruct (remix_dna_crossover ucd_sample (PyStr dna_ones) (PyStr dna_twos)
              100 world_sample eq_refl eq_refl)
    as (a & b & [= <-] & [= <-] & _ & _ & _ & Hout).
  split.
  - apply Hin. lia.
  - apply Hout. lia.
Defined.

(** C5 (the code departs from it).  The claim: the splice of two inputs
    that pass [validate_dna] passes it again.  On the digit [a] followed
    by 63 blanks and 64 ones, both of which pass, the splice at 32 has
    blanks between its digits and fails. *)
Theorem remix_dna_result_fails_validate : forall ucd w,
  validate_dna ucd (PyStr dna_blanks) = true
  /\ validate_dna ucd (PyStr dna_ones) = true
  /\ remix_dna ucd (PyStr dna_blanks) (PyStr dna_ones) 32 w
     = (Returns (str_of "a" ++ str_mul (str_of " ") 31 ++ str_mul (str_of "1") 32), w)
  /\ validate_dna ucd
       (PyStr (str_of "a" ++ str_mul (str_of " ") 31 ++ str_mul (str_of "1") 32))
     = false.
Proof. intros ucd w. vm_compute. auto. Qed.

(** On well-formed identifiers the splice is a well-formed identifier. *)
Lemma remix_dna_identifier ucd a b cp w :
  is_identifier a = true -> is_identifier b = true ->
  exists r, remix_dna ucd (PyStr a) (PyStr b) cp w = (Returns r, w)
            /\ is_identifier r = true.
Proof.
  intros Ha Hb.
  rewrite remix_dna_valid by now apply validate_dna_identifier.
  eexists. split; [reflexivity|].
  unfold is_identifier in *.
  apply andb_true_iff in Ha as [Hla Ha], Hb as [Hlb Hb].
  apply Nat.eqb_eq in Hla, Hlb.
  apply andb_true_iff. split.
  - apply Nat.eqb_eq. cbv zeta. rewrite length_app, length_take, length_drop.
    destruct ((cp <? 1) || (cp >=? 64)) eqn:E; lia.
  - cbv zeta. rewrite forallb_app. apply andb_true_iff.
    rewrite forallb_forall in Ha, Hb. split; apply forallb_forall; intros c Hc.
    + apply Ha. rewrite <- (take_drop (Z.to_nat (if (cp <? 1) || (cp >=? 64) then 32 else cp)) a).
      apply in_or_app. now left.
    + apply Hb. rewrite <- (take_drop (Z.to_nat (if (cp <? 1) || (cp >=? 64) then 32 else cp)) b).
      apply in_or_app. now right.
Qed.

(** ** [mutate_dna] *)

Lemma mutate_dna_valid ucd a rate w :
  validate_dna ucd (PyStr a) = true ->
  mutate_dna ucd (PyStr a) rate w
  = bind (for_each (mutate_step rate) (seq 0 (length a)) a) ret w.
Proof. intros Ha. unfold mutate_dna. rewrite Ha. reflexivity. Qed.

(** On an input that passes [validate_dna] the call returns a string of
    64 characters, each of them a character of the input or one of the
    sixteen digits. *)
Lemma mutate_dna_returns ucd (P : N -> Prop) a rate w :
  validate_dna ucd (PyStr a) = true ->
  Forall P a -> (forall c, lower_hex c = true -> P c) ->
  exists r w', mutate_dna ucd (PyStr a) rate w = (Returns r, w')
               /\ length r = 64%nat /\ Forall P r.
Proof.
  intros Ha Hall HP. rewrite mutate_dna_valid by assumption.
  destruct (for_each_mutate_step rate P (seq 0 (length a)) a w Hall HP)
    as (r & w' & Heq & Hlen & Hr).
  exists r, w'. rewrite (bind_returns _ _ _ _ _ Heq).
  destruct (validate_dna_str ucd _ Ha) as (a' & [= <-] & Hla).
  split; [reflexivity|]. split; [congruence | exact Hr].
Qed.

(** With a mutation rate of [0.0] an input that passes [validate_dna]
    comes back unchanged, whatever the random source draws. *)
Lemma mutate_dna_zero_rate ucd a w :
  validate_dna ucd (PyStr a) = true ->
  mutate_dna ucd (PyStr a) 0 w = (Returns a, World (tape w) (cursor w + 64)).
Proof.
  intros Ha. rewrite mutate_dna_valid by assumption.
  rewrite (bind_returns _ _ _ _ _ (for_each_mutate_step_zero _ a w)).
  destruct (validate_dna_str ucd _ Ha) as (a' & [= <-] & Hla).
  unfold ret. now rewrite length_seq, Hla.
Qed.

(** On a well-formed identifier, every rate and every outcome of the
    random source give a well-formed identifier. *)
Lemma mutate_dna_identifier ucd a rate w :
  is_identifier a = true ->
  exists r w', mutate_dna ucd (PyStr a) rate w = (Returns r, w')
               /\ is_identifier r = true.
Proof.
  intros Ha.
  destruct (mutate_dna_returns ucd (fun c => lower_hex c = true) a rate w)
    as (r & w' & Heq & Hlen & Hr); auto using validate_dna_identifier.
  { apply andb_true_iff in Ha as [_ Ha].
    apply Forall_forall. intros c Hc. rewrite forallb_forall in Ha.
    apply Ha. now apply list_elem_of_In. }
  exists r, w'. split; [exact Heq|].
  unfold is_identifier. rewrite Hlen. simpl.
  apply forallb_forall. intros c Hc. rewrite Forall_forall in Hr.
  apply Hr. now apply list_elem_of_In.
Qed.

(** C9 (the code departs from it).  The claim: an input that passes
    [validate_dna] comes back unchanged at rate [0.0], and at every rate
    the result is 64 hex digits.  The first half holds
    ([mutate_dna_zero_rate]); the second fails with it on the digit [a]
    followed by 63 blanks, which passes [validate_dna] and comes back as
    it is, blanks included, whatever the random source draws. *)
Theorem mutate_dna_keeps_blanks : forall ucd w,
  validate_dna ucd (PyStr dna_blanks) = true
  /\ mutate_dna ucd (PyStr dna_blanks) 0 w
     = (Returns dna_blanks, World (tape w) (cursor w + 64))
  /\ forallb lower_hex dna_blanks = false.
Proof.
  intros ucd w.
  assert (H : validate_dna ucd (PyStr dna_blanks) = true)
    by apply validate_dna_accepts_blanks_aux.
  split; [exact H|]. split; [now apply mutate_dna_zero_rate | reflexivity].
Qed.

(** ** Raising *)

(** C8.  [remix_dna] raises exactly when one of its two identifiers
    fails [validate_dna], [mutate_dna] exactly when its identifier does;
    what is raised is the invalid-format error, with the random source
    untouched; and the caller's continuation does not run: the error is
    the outcome of the caller's own computation. *)
Theorem invalid_format_error : forall ucd A B cp rate w,
  ((exists e w', remix_dna ucd A B cp w = (Raises e, w'))
   <-> (validate_dna ucd A = false \/ validate_dna ucd B = false))
  /\ ((exists e w', mutate_dna ucd A rate w = (Raises e, w'))
      <-> validate_dna ucd A = false)
  /\ (forall e w', remix_dna ucd A B cp w = (Raises e, w') ->
                   e = invalid_dna_format /\ w' = w)
  /\ (forall e w', mutate_dna ucd A rate w = (Raises e, w') ->
                   e = invalid_dna_format /\ w' = w)
  /\ (forall (X : Type) (k : list N -> M X) e w',
         remix_dna ucd A B cp w = (Raises e, w') ->
         (r <- remix_dna ucd A B cp ;; k r) w = (Raises e, w'))
  /\ (forall (X : Type) (k : list N -> M X) e w',
         mutate_dna ucd A rate w = (Raises e, w') ->
         (r <- mutate_dna ucd A rate ;; k r) w = (Raises e, w')).
Proof.
  intros ucd A B cp rate w.
  assert (Hremix : (validate_dna ucd A = true /\ validate_dna ucd B = true
                    /\ exists r, remix_dna ucd A B cp w = (Returns r, w))
                   \/ ((validate_dna ucd A = false \/ validate_dna ucd B = false)
                       /\ remix_dna ucd A B cp w = (Raises invalid_dna_format, w))).
  { destruct (validate_dna ucd A) eqn:HA, (validate_dna ucd B) eqn:HB.
    - left. repeat split.
      destruct (validate_dna_str ucd A HA) as (a & -> & _).
      destruct (validate_dna_str ucd B HB) as (b & -> & _).
      rewrite remix_dna_valid by assumption. eauto.
    - right. split; [auto|]. unfold remix_dna. now rewrite HA, HB.
    - right. split; [auto|]. unfold remix_dna. now rewrite HA.
    - right. split; [auto|]. unfold remix_dna. now rewrite HA. }
  assert (Hmut : (validate_dna ucd A = true
                  /\ exists r w', mutate_dna ucd A rate w = (Returns r, w'))
                 \/ (validate_dna ucd A = false
                     /\ mutate_dna ucd A rate w = (Raises invalid_dna_format, w))).
  { destruct (validate_dna ucd A) eqn:HA.
    - left. split; [reflexivity|].
      destruct (validate_dna_str ucd A HA) as (a & -> & _).
      destruct (mutate_dna_returns ucd (fun _ => True) a rate w HA)
        as (r & w' & Heq & _); eauto.
      apply Forall_forall. auto.
    - right. split; [reflexivity|]. unfold mutate_dna. now rewrite HA. }
  repeat split.
  - intros (e & w' & He).
    destruct Hremix as [(_ & _ & r & Hr) | [H _]]; [congruence | exact H].
  - intros H. destruct Hremix as [(HA & HB & _) | [_ Hr]]; eauto.
    destruct H; congruence.
  - intros (e & w' & He).
    destruct Hmut as [(_ & r & w1 & Hr) | [H _]]; [congruence | exact H].
  - intros H. destruct Hmut as [(HA & _) | [_ Hr]]; eauto. congruence.
  - destruct Hremix as [(_ & _ & r & Hr) | [_ Hr]]; congruence.
  - destruct Hremix as [(_ & _ & r & Hr) | [_ Hr]]; congruence.
  - destruct Hmut as [(_ & r & w1 & Hr) | [_ Hr]]; congruence.
  - destruct Hmut as [(_ & r & w1 & Hr) | [_ Hr]]; congruence.
  - intros X k e w' He. now apply bind_raises.
  - intros X k e w' He. now apply bind_raises.
Qed.

Lemma invalid_format_error_witness :
  (exists e w', remix_dna ucd_sample (PyStr (str_of "not-hex")) (PyStr dna_twos)
                          32 world_sample = (Raises e, w'))
  /\ (exists e w', mutate_dna ucd_sample (PyStr (str_of "not-hex")) 0.1
                              world_sample = (Raises e, w')).
Proof.
  pose proof (invalid_format_error ucd_sample (PyStr (str_of "not-hex"))
                (PyStr dna_twos) 32 0.1 world_sample) as (Hr & Hm & _).
  split.
  - apply Hr. left. reflexivity.
  - apply Hm. reflexivity.
Defined.

(** ** [decode_dna] *)

Lemma mod_in_range k n :
  0 <= k < Z.of_nat n -> In k (map Z.of_nat (seq 0 n)).
Proof.
  intros H. apply in_map_iff. exists (Z.to_nat k).
  split; [lia | apply in_seq; lia].
Qed.

(** The twenty temperatures: [0.1 + k * 0.1] rounded to one decimal is
    the float nearest to [(k + 1) / 10]. *)
Lemma temperature_table k :
  0 <= k < 20 ->
  py_round (0.1 + float_of_Z k * 0.1) 1 = (float_of_Z (1 + k) / 10)%float.
Proof. intros H%(mod_in_range k 20). by_table H. Qed.

Lemma model_map_lookup c :
  default (str_of "dolphin-phi:latest") (model_map !! [c]) = model_for c.
Proof.
  unfold model_for.
  destruct (N.eqb_spec c 48) as [-> | H0]; [vm_compute; reflexivity|].
  destruct (N.eqb_spec c 49) as [-> | H1]; [vm_compute; reflexivity|].
  destruct (N.eqb_spec c 50) as [-> | H2]; [vm_compute; reflexivity|].
  destruct (N.eqb_spec c 51) as [-> | H3]; [vm_compute; reflexivity|].
  unfold model_map. rewrite !list_to_map_cons, list_to_map_nil.
  cbn [fst snd].
  change (str_of "0") with [48%N]. change (str_of "1") with [49%N].
  change (str_of "2") with [50%N]. change (str_of "3") with [51%N].
  rewrite !lookup_insert_ne by congruence.
  rewrite lookup_empty. reflexivity.
Qed.

(** On any non-empty string, valid or not, [decode_dna] returns its
    estimate and leaves the random source alone. *)
Lemma decode_dna_nonempty c s w :
  decode_dna (c :: s) w
  = (Returns
       (PyDict
          [ (str_of "temperature",
             PyFloat (float_of_Z (1 + ord_sum (c :: s) mod 20) / 10)%float);
            (str_of "top_p",
             PyFloat (float_of_Z (1 + ord_sum (c :: s) mod 9) / 10)%float);
            (str_of "model", PyStr (model_for c));
            (str_of "dna", PyStr (c :: s));
            (str_of "note", PyStr (str_of "Parameters estimated from DNA pattern")) ]),
     w).
Proof.
  unfold decode_dna.
  assert (Hget : str_getitem (c :: s) 0 w = (Returns [c], w)).
  { unfold str_getitem. cbn [length]. 
    destruct (Z.ltb_spec 0 0); [lia|].
    destruct (Z.ltb_spec 0 0); [lia|].
    destruct (Z.leb_spec (Z.of_nat (S (length s))) 0); [lia|]. reflexivity. }
  rewrite (bind_returns _ _ _ _ _ Hget). unfold ret.
  rewrite model_map_lookup.
  rewrite temperature_table by (apply Z.mod_pos_bound; lia).
  assert (Hp : 0 <= ord_sum (c :: s) mod 9 < 20)
    by (pose proof (Z.mod_pos_bound (ord_sum (c :: s)) 9); lia).
  rewrite (temperature_table _ Hp). reflexivity.
Qed.

Lemma ord_sum_from s : forall acc,
  fold_left (fun acc c => acc + Z.of_N c) s acc = acc + code_sum s.
Proof.
  induction s as [|c s IH]; intros acc; simpl; [lia|]. rewrite IH. lia.
Qed.

(** What the code adds up is the sum of the character codes. *)
Lemma ord_sum_code_sum s : ord_sum s = code_sum s.
Proof. unfold ord_sum. now rewrite ord_sum_from. Qed.

(** C7.  For an identifier [d] that passes [validate_dna], [decode_dna]
    returns one and the same estimate in every state of the random
    source, which it leaves untouched.  With [S] the sum of the character
    codes of all 64 characters of [d]: the temperature is
    [0.1 + (S mod 20) * 0.1] rounded to one decimal, which is the float
    nearest to [(1 + S mod 20) / 10], one of twenty values from 0.1 to
    2.0; top_p is [0.1 + (S mod 9) * 0.1] rounded to one decimal, the
    float nearest to [(1 + S mod 9) / 10], one of nine values from 0.1 to
    0.9; the model is read off the first character by the table, with the
    default model for any other character. *)
Theorem decode_dna_estimate : forall ucd d,
  validate_dna ucd (PyStr d) = true ->
  exists c t p,
    head d = Some c
    /\ length d = 64%nat
    /\ (forall w,
          decode_dna d w
          = (Returns
               (PyDict
                  [ (str_of "temperature", PyFloat t);
                    (str_of "top_p", PyFloat p);
                    (str_of "model", PyStr (model_for c));
                    (str_of "dna", PyStr d);
                    (str_of "note",
                     PyStr (str_of "Parameters estimated from DNA pattern")) ]),
             w))
    /\ t = py_round (0.1 + float_of_Z (code_sum d mod 20) * 0.1) 1
    /\ t = (float_of_Z (1 + code_sum d mod 20) / 10)%float
    /\ 1 <= 1 + code_sum d mod 20 <= 20
    /\ p = py_round (0.1 + float_of_Z (code_sum d mod 9) * 0.1) 1
    /\ p = (float_of_Z (1 + code_sum d mod 9) / 10)%float
    /\ 1 <= 1 + code_sum d mod 9 <= 9
    /\ (~ In c [48; 49; 50; 51]%N -> model_for c = str_of "dolphin-phi:latest").
Proof.
  intros ucd d Hd.
  destruct (validate_dna_str ucd _ Hd) as (d' & [= <-] & Hlen).
  destruct d as [|c s]; [discriminate|].
  pose proof (Z.mod_pos_bound (code_sum (c :: s)) 20 ltac:(lia)) as H20.
  pose proof (Z.mod_pos_bound (code_sum (c :: s)) 9 ltac:(lia)) as H9.
  exists c, (float_of_Z (1 + code_sum (c :: s) mod 20) / 10)%float,
    (float_of_Z (1 + code_sum (c :: s) mod 9) / 10)%float.
  split; [reflexivity|]. split; [exact Hlen|].
  split; [intros w; rewrite decode_dna_nonempty, ord_sum_code_sum; reflexivity|].
  split; [symmetry; now apply temperature_table|].
  split; [reflexivity|]. split; [lia|].
  split; [symmetry; apply temperature_table; lia|].
  split; [reflexivity|]. split; [lia|].
  intros Hc. unfold model_for.
  destruct (N.eqb_spec c 48); [subst; simpl in Hc; tauto|].
  destruct (N.eqb_spec c 49); [subst; simpl in Hc; tauto|].
  destruct (N.eqb_spec c 50); [subst; simpl in Hc; tauto|].
  destruct (N.eqb_spec c 51); [subst; simpl in Hc; tauto|].
  reflexivity.
Qed.

Lemma decode_dna_estimate_witness :
  code_sum dna_twos = 3200
  /\ decode_dna dna_twos world_sample
     = (Returns
          (PyDict
             [ (str_of "temperature", PyFloat (float_of_Z 1 / 10)%float);
               (str_of "top_p", PyFloat (float_of_Z 6 / 10)%float);
               (str_of "model", PyStr (str_of "mistral:latest"));
               (str_of "dna", PyStr dna_twos);
               (str_of "note",
                PyStr (str_of "Parameters estimated from DNA pattern")) ]),
        world_sample).
Proof.
  split; [reflexivity|].
  destruct (decode_dna_estimate ucd_sample dna_twos eq_refl)
    as (c & t & p & [= <-] & _ & Hrun & _ & -> & _ & _ & -> & _).
  exact (Hrun world_sample).
Defined.

(** C10.  [decode_dna] checks nothing about its input: on the empty
    string it raises when it indexes the first character, while on every
    non-empty string, well-formed or not, it returns an estimate. *)
Theorem decode_dna_empty_raises :
  (forall w,
      decode_dna [] w
      = (Raises (IndexError (str_of "string index out of range")), w))
  /\ (forall c s w, exists r, decode_dna (c :: s) w = (Returns r, w))
  /\ (forall ucd, validate_dna ucd (PyStr (str_of "not-hex")) = false)
  /\ (forall w, exists r, decode_dna (str_of "not-hex") w = (Returns r, w)).
Proof.
  split; [reflexivity|].
  split; [intros c s w; rewrite decode_dna_nonempty; eauto|].
  split; [reflexivity|].
  intros w. change (str_of "not-hex") with (110%N :: str_of "ot-hex").
  rewrite decode_dna_nonempty; eauto.
Qed.

(** ** [analyze_dna_compatibility] *)

Lemma differences_of_acc a : forall b acc,
  fold_left (fun acc '(c1, c2) => acc + (if (c1 =? c2)%N then 0 else 1))
            (zip a b) acc
  = acc + hamming a b.
Proof.
  induction a as [|x a IH]; intros [|y b] acc; simpl; try lia.
  rewrite IH. lia.
Qed.

(** The count of the code is the Hamming distance. *)
Lemma differences_of_hamming a b : differences_of a b = hamming a b.
Proof. unfold differences_of. now rewrite differences_of_acc. Qed.

Lemma hamming_bounds a : forall b,
  0 <= hamming a b <= Z.of_nat (length a).
Proof.
  induction a as [|x a IH]; intros [|y b]; simpl hamming; cbn [length]; try lia.
  specialize (IH b). destruct (x =? y)%N; lia.
Qed.

(** The 65 similarities.  [(64 - d) / 64 * 100] is exact in floating
    point, so the comparisons are those of the exact quotient, and its
    rounding to two decimals is the float nearest to the hundredths of
    the exact quotient rounded half to even. *)
Lemma similarity_table d :
  0 <= d < 65 ->
  let similarity := (float_of_Z (64 - d) / 64 * 100)%float in
  let n := div_half_even ((64 - d) * 10000) 64 in
  py_round similarity 2 = (float_of_Z n / 100)%float
  /\ (50 <? similarity)%float = (50 * 64 <? (64 - d) * 100)
  /\ (70 <? similarity)%float = (70 * 64 <? (64 - d) * 100)
  /\ (40 <? similarity)%float = (40 * 64 <? (64 - d) * 100)
  /\ (0 <=? float_of_Z n / 100)%float = true
  /\ (float_of_Z n / 100 <=? 100)%float = true
  /\ (50 * 64 <? (64 - d) * 100) = (5000 <? n)
  /\ (70 * 64 <? (64 - d) * 100) = (7000 <? n)
  /\ (40 * 64 <? (64 - d) * 100) = (4000 <? n)
  /\ 0 <= n <= 10000.
Proof.
  intros H%(mod_in_range d 65).
  vm_compute in H;
  repeat (destruct H as [<- | H];
          [vm_compute; repeat split; (reflexivity || discriminate)|]);
  contradiction.
Qed.

(** C6.  If either input fails [validate_dna] the call returns the
    error-shaped dictionary and raises nothing.  If both pass, it returns
    the report: [differences] is the Hamming distance [d] of the two
    strings; [similarity_percentage] is [(64 - d) / 64 * 100] rounded to
    two decimals, a float between 0 and 100 (the one nearest to [n / 100]
    for [n] the hundredths); [recommended_crossover] is 32 when the
    similarity exceeds 50 and 16 otherwise; the label is High above 70,
    Medium above 40 and Low otherwise.  Each threshold decides the same
    way on the exact and on the rounded similarity. *)
Theorem analyze_dna_compatibility_report : forall ucd A B w,
  (validate_dna ucd A = false \/ validate_dna ucd B = false ->
   analyze_dna_compatibility ucd A B w
   = (Returns (PyDict [ (str_of "error", PyStr (str_of "Invalid DNA format")) ]), w))
  /\ (validate_dna ucd A = true -> validate_dna ucd B = true ->
      exists a b d n,
        A = PyStr a /\ B = PyStr b
        /\ d = hamming a b /\ 0 <= d <= 64
        /\ n = div_half_even ((64 - d) * 10000) 64 /\ 0 <= n <= 10000
        /\ py_round (float_of_Z (64 - d) / 64 * 100) 2 = (float_of_Z n / 100)%float
        /\ (0 <=? float_of_Z n / 100)%float = true
        /\ (float_of_Z n / 100 <=? 100)%float = true
        /\ (50 * 64 <? (64 - d) * 100) = (5000 <? n)
        /\ (70 * 64 <? (64 - d) * 100) = (7000 <? n)
        /\ (40 * 64 <? (64 - d) * 100) = (4000 <? n)
        /\ analyze_dna_compatibility ucd A B w
           = (Returns
                (PyDict
                   [ (str_of "similarity_percentage",
                      PyFloat (float_of_Z n / 100)%float);
                     (str_of "differences", PyInt d);
                     (str_of "recommended_crossover",
                      PyInt (if 50 * 64 <? (64 - d) * 100 then 32 else 16));
                     (str_of "patterns_a", patterns ucd a);
                     (str_of "patterns_b", patterns ucd b);
                     (str_of "compatibility",
                      PyStr (if 70 * 64 <? (64 - d) * 100 then str_of "High"
                             else if 40 * 64 <? (64 - d) * 100 then str_of "Medium"
                             else str_of "Low")) ]),
              w)).
Proof.
  intros ucd A B w. split.
  - intros H. unfold analyze_dna_compatibility.
    destruct H as [-> | ->]; [reflexivity|].
    now rewrite orb_true_r.
  - intros HA HB.
    destruct (validate_dna_str ucd A HA) as (a & -> & Hla).
    destruct (validate_dna_str ucd B HB) as (b & -> & Hlb).
    pose proof (hamming_bounds a b) as Hd. rewrite Hla in Hd.
    destruct (similarity_table (hamming a b) ltac:(lia))
      as (Hr & H50 & H70 & H40 & Hlo & Hhi & E50 & E70 & E40 & Hn).
    exists a, b, (hamming a b), (div_half_even ((64 - hamming a b) * 10000) 64).
    repeat (split; [first [reflexivity | assumption | lia]|]).
    unfold analyze_dna_compatibility. rewrite HA, HB. simpl negb. simpl orb.
    cbv iota. unfold expect_str, bind, ret.
    rewrite differences_of_hamming, Hr, H50, H70, H40. reflexivity.
Qed.

Lemma analyze_dna_compatibility_report_witness :
  analyze_dna_compatibility ucd_sample (PyStr dna_ones) (PyStr dna_ones) world_sample
  = (Returns
       (PyDict
          [ (str_of "similarity_percentage", PyFloat 100);
            (str_of "differences", PyInt 0);
            (str_of "recommended_crossover", PyInt 32);
            (str_of "patterns_a", patterns ucd_sample dna_ones);
            (str_of "patterns_b", patterns ucd_sample dna_ones);
            (str_of "compatibility", PyStr (str_of "High")) ]),
     world_sample)
  /\ analyze_dna_compatibility ucd_sample (PyStr (str_of "not-hex")) (PyStr dna_ones)
       world_sample
     = (Returns (PyDict [ (str_of "error", PyStr (str_of "Invalid DNA format")) ]),
        world_sample).
Proof.
  pose proof (analyze_dna_compatibility_report ucd_sample (PyStr dna_ones)
                (PyStr dna_ones) world_sample) as [_ Hok].
  pose proof (analyze_dna_compatibility_report ucd_sample (PyStr (str_of "not-hex"))
                (PyStr dna_ones) world_sample) as [Herr _].
  split.
  - destruct (Hok eq_refl eq_refl)
      as (a & b & d & n & [= <-] & [= <-] & -> & _ & -> & _ & _ & _ & _ & _ & _ & _ & Hrun).
    exact Hrun.
  - apply Herr. left. reflexivity.
Defined.

(** ** Canonical form: the order of the keys does not matter *)

Lemma str_le_total a : forall b, str_le a b = true \/ str_le b a = true.
Proof.
  induction a as [|x a IH]; intros [|y b]; simpl; auto.
  destruct (N.ltb_spec x y), (N.ltb_spec y x); auto; lia.
Qed.

Lemma str_le_trans a : forall b c,
  str_le a b = true -> str_le b c = true -> str_le a c = true.
Proof.
  induction a as [|x a IH]; intros [|y b] [|z c]; simpl; auto; try discriminate.
  destruct (N.ltb_spec x y), (N.ltb_spec y x), (N.ltb_spec y z),
    (N.ltb_spec z y), (N.ltb_spec x z), (N.ltb_spec z x);
    try discriminate; try lia; auto.
  apply IH.
Qed.

Lemma str_le_antisym a : forall b,
  str_le a b = true -> str_le b a = true -> a = b.
Proof.
  induction a as [|x a IH]; intros [|y b]; simpl; auto; try discriminate.
  destruct (N.ltb_spec x y), (N.ltb_spec y x); try discriminate; try lia.
  intros H1 H2. f_equal; [lia | now apply IH].
Qed.

Lemma insert_item_Permutation {V} (kv : list N * V) l :
  insert_item kv l ≡ₚ kv :: l.
Proof.
  induction l as [|kv' l IH]; simpl; [reflexivity|].
  destruct (str_le kv'.1 kv.1); [|reflexivity].
  rewrite IH. apply Permutation_swap.
Qed.

Lemma insert_item_Sorted {V} (kv : list N * V) l :
  Sorted key_le l -> Sorted key_le (insert_item kv l).
Proof.
  induction 1 as [|kv' l Hl IH Hhd]; simpl.
  - repeat constructor.
  - destruct (str_le kv'.1 kv.1) eqn:E.
    + constructor; [exact IH|].
      destruct Hhd as [|kv'' l' Hle]; simpl.
      * repeat constructor. exact E.
      * destruct (str_le kv''.1 kv.1); constructor; auto.
    + constructor; [now constructor|]. constructor.
      destruct (str_le_total kv.1 kv'.1) as [H|H]; [exact H | congruence].
Qed.

Lemma sorted_items_spec {V} (d : list (list N * V)) :
  Sorted key_le (sorted_items d) /\ sorted_items d ≡ₚ d.
Proof.
  unfold sorted_items.
  assert (H : forall acc, Sorted key_le acc ->
              Sorted key_le (fold_left (fun acc kv => insert_item kv acc) d acc)
              /\ fold_left (fun acc kv => insert_item kv acc) d acc ≡ₚ acc ++ d).
  { induction d as [|kv d IH]; intros acc Hacc; simpl.
    - split; [exact Hacc | now rewrite app_nil_r].
    - destruct (IH (insert_item kv acc) (insert_item_Sorted kv acc Hacc)) as [Hs Hp].
      split; [exact Hs|]. rewrite Hp, insert_item_Permutation.
      simpl. apply Permutation_middle. }
  destruct (H [] ltac:(constructor)) as [Hs Hp]. auto.
Qed.

(** Two dictionaries with the same items, whatever the order they were
    built in, have the same sorted items. *)
Lemma sorted_items_canonical {V} (d1 d2 : list (list N * V)) :
  NoDup d1.*1 -> d1 ≡ₚ d2 -> sorted_items d1 = sorted_items d2.
Proof.
  intros Hnd Hperm.
  destruct (sorted_items_spec d1) as [Hs1 Hp1].
  destruct (sorted_items_spec d2) as [Hs2 Hp2].
  assert (Htrans : Transitive (@key_le V)).
  { intros x y z. unfold key_le. apply str_le_trans. }
  apply (Sorted_unique_strong key_le); auto.
  - intros x1 x2 Hx1 Hx2 H12 H21.
    rewrite Hp1 in Hx1. rewrite Hp2, <- Hperm in Hx2.
    pose proof (str_le_antisym _ _ H12 H21) as Hk.
    apply list_elem_of_lookup in Hx1 as [i Hi], Hx2 as [j Hj].
    assert (i = j).
    { apply (NoDup_lookup d1.*1 i j x1.1); [exact Hnd | |];
        rewrite list_lookup_fmap; [now rewrite Hi | now rewrite Hj, Hk]. }
    subst j. congruence.
  - now rewrite Hp1, Hp2.
Qed.

(** ** [json.dumps]: what it writes, when it returns, what it raises *)

Lemma str_of_narrow s : Forall narrow (str_of s).
Proof.
  unfold str_of. apply Forall_forall. intros c Hc.
  apply list_elem_of_In, in_map_iff in Hc as (a & <- & _).
  apply N_ascii_bounded.
Qed.

Lemma hex_digit_lower n : 0 <= n < 16 -> lower_hex (SHA256.hex_digit n) = true.
Proof.
  intros H. assert (Hn : In n (map Z.of_nat (seq 0 16))) by (apply mod_in_range; lia).
  by_table Hn.
Qed.

Lemma lower_hex_narrow c : lower_hex c = true -> narrow c.
Proof. intros H%lower_hex_range. unfold narrow. lia. Qed.

Lemma hex4_narrow n : Forall narrow (hex4 n).
Proof.
  unfold hex4. repeat constructor;
    apply lower_hex_narrow, hex_digit_lower, Z.mod_pos_bound; lia.
Qed.

Lemma escape_char_narrow c : Forall narrow (escape_char c).
Proof.
  unfold escape_char, backslash_u.
  repeat match goal with
         | |- context [if ?b then _ else _] => destruct b eqn:?
         end;
    repeat first [ apply Forall_app; split
                 | apply str_of_narrow | apply hex4_narrow ].
  - repeat constructor.
  - repeat constructor. unfold narrow.
    match goal with
    | H : (_ && (c <=? 126)%N) = true |- _ =>
        apply andb_true_iff in H as [_ H%N.leb_le]; lia
    end.
Qed.

Lemma encode_basestring_ascii_narrow s : Forall narrow (encode_basestring_ascii s).
Proof.
  unfold encode_basestring_ascii.
  apply Forall_app; split; [repeat constructor|].
  apply Forall_app; split; [|repeat constructor].
  induction s as [|c s IH]; simpl; [constructor|].
  apply Forall_app; split; [apply escape_char_narrow | exact IH].
Qed.

Lemma join_narrow sep parts :
  Forall narrow sep -> Forall (Forall narrow) parts -> Forall narrow (join sep parts).
Proof.
  intros Hsep. induction 1 as [|p rest Hp Hrest IH]; simpl; [constructor|].
  destruct rest; [exact Hp|].
  apply Forall_app; split; [exact Hp|].
  apply Forall_app; split; [exact Hsep | exact IH].
Qed.

Lemma forallb_Forall_true {A} (f : A -> bool) l :
  forallb f l = true <-> Forall (fun x => f x = true) l.
Proof.
  induction l as [|x l IH]; simpl; [split; constructor|].
  rewrite andb_true_iff, Forall_cons, IH. reflexivity.
Qed.

Lemma Returns_inj {A} (x y : A) : Returns x = Returns y -> x = y.
Proof. congruence. Qed.

Lemma Raises_inj {A} (e e' : exn) : @Raises A e = Raises e' -> e = e'.
Proof. congruence. Qed.

(** A list comprehension returns when each of its elements does, and
    what it raises is raised by one of them. *)
Lemma collect_returns {A B} (f : A -> outcome B) (P : B -> Prop) l : forall ys,
  (forall x y, In x l -> f x = Returns y -> P y) ->
  collect f l = Returns ys -> Forall P ys.
Proof.
  induction l as [|x l IH]; intros ys HP; simpl.
  - intros [= <-]. constructor.
  - destruct (f x) as [y|e] eqn:Ex; simpl; [|discriminate].
    destruct (collect f l) as [ys'|e] eqn:El; simpl; [|discriminate].
    intros [= <-]. constructor.
    + apply (HP x); [now left | exact Ex].
    + apply IH; [|reflexivity]. intros x' y' Hin. apply HP. now right.
Qed.

Lemma collect_returns_iff {A B} (f : A -> outcome B) l :
  (exists ys, collect f l = Returns ys)
  <-> Forall (fun x => exists y, f x = Returns y) l.
Proof.
  induction l as [|x l IH]; simpl.
  - split; [constructor | eauto].
  - split.
    + intros [ys H]. destruct (f x) as [y|e] eqn:Ex; simpl in H; [|discriminate].
      destruct (collect f l) as [ys'|e] eqn:El; simpl in H; [|discriminate].
      constructor; [eauto | apply IH; eauto].
    + intros H. inversion H as [|? ? [y Hy] Hl]; subst.
      apply IH in Hl as [ys Hys]. rewrite Hy, Hys. simpl. eauto.
Qed.

Lemma collect_raises {A B} (f : A -> outcome B) l e :
  collect f l = Raises e -> exists x, In x l /\ f x = Raises e.
Proof.
  induction l as [|x l IH]; simpl; [discriminate|].
  destruct (f x) as [y|e'] eqn:Ex; simpl.
  - destruct (collect f l) as [ys'|e''] eqn:El; simpl; [discriminate|].
    intros [= <-]. destruct (IH eq_refl) as (x' & Hin & Hx'). eauto.
  - intros [= <-]. eauto.
Qed.

(** The digits [int.__repr__] writes are as many as the integer has. *)
Lemma string_of_uint_length d :
  String.length (DecimalString.NilEmpty.string_of_uint d) = Decimal.nb_digits d.
Proof. induction d; simpl; congruence. Qed.

Lemma str_of_length s : length (str_of s) = String.length s.
Proof.
  unfold str_of. rewrite length_map.
  induction s as [|a s IH]; simpl; congruence.
Qed.

Lemma intstr_digits z :
  length (str_of (DecimalString.NilZero.string_of_int (Z.to_int z)))
  = (decimal_digits z + (if (z <? 0)%Z then 1 else 0))%nat.
Proof.
  rewrite str_of_length. unfold decimal_digits.
  destruct z as [|p|p]; [reflexivity | |]; simpl Z.to_int; simpl Z.abs_N;
    simpl N.to_uint;
    unfold DecimalString.NilZero.string_of_int, DecimalString.NilZero.string_of_uint;
    pose proof (DecimalPos.Unsigned.to_uint_nonnil p) as Hnil;
    destruct (Pos.to_uint p) eqn:E; try congruence;
    rewrite <- ?E; cbn [String.length]; rewrite string_of_uint_length;
    unfold Z.ltb; cbn [Z.compare]; lia.
Qed.

Lemma intstr_within limit z :
  intstr limit z
  = if int_within limit z
    then Returns (str_of (DecimalString.NilZero.string_of_int (Z.to_int z)))
    else Raises (digits_exceeded limit).
Proof.
  unfold intstr, int_within, PY_LONG_MAX_STR_DIGITS_THRESHOLD. cbv zeta.
  rewrite intstr_digits.
  set (sign := if (z <? 0)%Z then 1%nat else 0%nat).
  replace (decimal_digits z + sign - sign)%nat with (decimal_digits z) by lia.
  destruct (Nat.ltb_spec 640 (decimal_digits z + sign)),
    (Nat.leb_spec (decimal_digits z + sign) 640); try lia;
    destruct (Nat.ltb_spec 0 limit), (Nat.eqb_spec limit 0); try lia;
    destruct (Nat.ltb_spec limit (decimal_digits z)),
      (Nat.leb_spec (decimal_digits z) limit); try lia; reflexivity.
Qed.

Section JsonFacts.
Variable float_repr : float -> string.
Variable limit : nat.

Lemma floatstr_narrow f : Forall narrow (floatstr float_repr f).
Proof. unfold floatstr. repeat case_match; apply str_of_narrow. Qed.

(** Whatever the encoder returns is made of narrow characters. *)
Lemma json_encode_narrow depth : forall o text,
  json_encode float_repr limit depth o = Returns text -> Forall narrow text.
Proof.
  assert (Hscalar : forall depth o text,
             match o with PyList _ | PyDict _ => False | _ => True end ->
             json_encode float_repr limit depth o = Returns text ->
             Forall narrow text).
  { intros d o text Ho H. destruct d, o as [ | [|] | z | f | s | l | dd | t];
      try contradiction; cbn [json_encode] in H;
      try (apply Returns_inj in H; subst text; first [apply str_of_narrow | apply floatstr_narrow
                                     | apply encode_basestring_ascii_narrow]);
      try discriminate;
      rewrite intstr_within in H; destruct (int_within limit z);
      try discriminate; apply Returns_inj in H; subst text; apply str_of_narrow. }
  induction depth as [|depth IH]; intros o text H.
  - destruct o; try (refine (Hscalar _ _ _ _ H); exact I); simpl in H; discriminate H.
  - destruct o as [ | b | z | f | s | l | d | t];
      try (refine (Hscalar _ _ _ _ H); exact I); cbn [json_encode] in H.
    + destruct (collect (json_encode float_repr limit depth) l) as [parts|e] eqn:E;
        cbn [and_then] in H; [|discriminate]. apply Returns_inj in H; subst text.
      apply Forall_app; split; [apply str_of_narrow|].
      apply Forall_app; split; [|apply str_of_narrow].
      apply join_narrow; [apply str_of_narrow|].
      apply (collect_returns _ _ _ _ (fun x y _ => IH x y) E).
    + match type of H with
      | and_then (collect ?g ?l') _ = _ =>
          destruct (collect g l') as [parts|e] eqn:E; cbn [and_then] in H; [|discriminate]
      end.
      apply Returns_inj in H; subst text.
      apply Forall_app; split; [apply str_of_narrow|].
      apply Forall_app; split; [|apply str_of_narrow].
      apply join_narrow; [apply str_of_narrow|].
      refine (collect_returns _ _ _ _ _ E).
      intros kv y _ Hy.
      destruct (json_encode float_repr limit depth kv.2) as [v|e] eqn:Ev;
        cbn [and_then] in Hy; [|discriminate]. apply Returns_inj in Hy; subst y.
      apply Forall_app; split; [apply encode_basestring_ascii_narrow|].
      apply Forall_app; split; [apply str_of_narrow | apply (IH _ _ Ev)].
Qed.

(** What the encoder raises is one of its three exceptions. *)
Lemma json_encode_raises depth : forall o e,
  json_encode float_repr limit depth o = Raises e -> serialisation_error limit e.
Proof.
  assert (Hscalar : forall depth o e,
             match o with PyList _ | PyDict _ => False | _ => True end ->
             json_encode float_repr limit depth o = Raises e ->
             serialisation_error limit e).
  { intros d o e Ho H. destruct d, o as [ | [|] | z | f | s | l | dd | t];
      try contradiction; cbn [json_encode] in H; try discriminate;
      try (apply Raises_inj in H; subst e; left; eauto);
      rewrite intstr_within in H; destruct (int_within limit z);
      try discriminate; apply Raises_inj in H; subst e; right; right; reflexivity. }
  induction depth as [|depth IH]; intros o e H.
  - destruct o; try (refine (Hscalar _ _ _ _ H); exact I);
      simpl in H; apply Raises_inj in H; subst e; right; left; reflexivity.
  - destruct o as [ | b | z | f | s | l | d | t];
      try (refine (Hscalar _ _ _ _ H); exact I); cbn [json_encode] in H.
    + destruct (collect (json_encode float_repr limit depth) l) as [parts|e'] eqn:E;
        cbn [and_then] in H; [discriminate|]. apply Raises_inj in H; subst e.
      apply collect_raises in E as (x & _ & Hx). apply (IH _ _ Hx).
    + match type of H with
      | and_then (collect ?g ?l') _ = _ =>
          destruct (collect g l') as [parts|e'] eqn:E; cbn [and_then] in H;
          [discriminate|]
      end.
      apply Raises_inj in H; subst e.
      apply collect_raises in E as (kv & _ & Hkv).
      destruct (json_encode float_repr limit depth kv.2) as [v|e''] eqn:Ev;
        cbn [and_then] in Hkv; [discriminate|].
      apply Raises_inj in Hkv; subst e''. apply (IH _ _ Ev).
Qed.

(** The encoder returns exactly on the serialisable objects. *)
Lemma json_encode_returns_iff depth : forall o,
  (exists text, json_encode float_repr limit depth o = Returns text)
  <-> serialisable limit depth o = true.
Proof.
  assert (Hscalar : forall depth o,
             match o with PyList _ | PyDict _ => False | _ => True end ->
             (exists text, json_encode float_repr limit depth o = Returns text)
             <-> serialisable limit depth o = true).
  { intros d o Ho. destruct d, o as [ | [|] | z | f | s | l | dd | t];
      try contradiction; cbn [json_encode serialisable];
      try (split; [reflexivity | eauto]);
      try (split; [intros [? ?]; discriminate | discriminate]);
      rewrite intstr_within; destruct (int_within limit z); split; intros H;
      first [reflexivity | discriminate | destruct H; discriminate | eauto]. }
  induction depth as [|depth IH]; intros o.
  - destruct o; try (refine (Hscalar 0%nat _ _); exact I);
      cbn [json_encode serialisable];
      (split; [intros [? ?]; discriminate | discriminate]).
  - destruct o as [ | b | z | f | s | l | d | t];
      try (refine (Hscalar (S depth) _ _); exact I);
      cbn [json_encode serialisable]; rewrite forallb_Forall_true.
    + transitivity (Forall (fun o => exists text,
                              json_encode float_repr limit depth o = Returns text) l);
        [|apply Forall_iff; exact IH].
      rewrite <- collect_returns_iff. split.
      * intros [text H].
        destruct (collect (json_encode float_repr limit depth) l) as [parts|e];
          cbn [and_then] in H; [eauto | discriminate].
      * intros [parts ->]. cbn [and_then]. eauto.
    + destruct (sorted_items_spec d) as [_ Hperm]. rewrite <- Hperm.
      match goal with
      | |- context [collect ?g (sorted_items d)] =>
          transitivity (Forall (fun kv => exists y, g kv = Returns y) (sorted_items d))
      end.
      * rewrite <- collect_returns_iff. split.
        -- intros [text H].
           match type of H with
           | and_then (collect ?g ?l') _ = _ =>
               destruct (collect g l') as [parts|e]; cbn [and_then] in H;
               [eauto | discriminate]
           end.
        -- intros [parts ->]. cbn [and_then]. eauto.
      * apply Forall_iff. intros [k v]. cbn [fst snd]. rewrite <- IH. split.
        -- intros [y Hy].
           destruct (json_encode float_repr limit depth v);
             [eauto | discriminate].
        -- intros [text ->]. cbn [and_then]. eauto.
Qed.

End JsonFacts.

(** [encode()] succeeds on narrow characters, in any world. *)
Lemma str_encode_narrow s :
  Forall narrow s -> exists bs, forall w, str_encode s w = (Returns bs, w).
Proof.
  induction 1 as [|c s Hc Hs [bs IH]]; simpl.
  - exists []. reflexivity.
  - unfold narrow in Hc.
    assert (Hu : exists b, utf8_char c = Some b).
    { unfold utf8_char.
      destruct (Z.ltb_spec (Z.of_N c) 128); [eauto|].
      destruct (Z.ltb_spec (Z.of_N c) 2048); [eauto | lia]. }
    destruct Hu as [b ->]. exists (b ++ bs). intros w.
    rewrite (bind_returns _ _ _ _ _ (IH w)). reflexivity.
Qed.

(** ** The digest is a well-formed identifier *)

Lemma word_hex_lower w : forallb lower_hex (SHA256.word_hex w) = true.
Proof.
  unfold SHA256.word_hex. cbn [map forallb].
  rewrite !hex_digit_lower by (apply Z.mod_pos_bound; lia). reflexivity.
Qed.

Lemma hexdigest_identifier s : is_identifier (SHA256.hexdigest s) = true.
Proof.
  unfold is_identifier, SHA256.hexdigest. apply andb_true_iff. split.
  - reflexivity.
  - rewrite !forallb_app, !word_hex_lower. reflexivity.
Qed.

Lemma slice_to_64 s : length s = 64%nat -> slice_to s 64 = s.
Proof.
  intros H. unfold slice_to. rewrite slice_bound_in_range by lia.
  apply take_ge. lia.
Qed.

(** ** [generate_dna] and [generate_persona_dna] *)

(** Hash and render: the identifier is fixed by the text alone, and the
    random source is left alone. *)
Lemma hash_of_text text :
  Forall narrow text ->
  exists dna,
    is_identifier dna = true
    /\ forall w,
         (bytes <- str_encode text ;;
          ret (slice_to (SHA256.hexdigest (SHA256.sha256 bytes)) 64)) w
         = (Returns dna, w).
Proof.
  intros Htext. destruct (str_encode_narrow _ Htext) as [bs Hbs].
  exists (SHA256.hexdigest (SHA256.sha256 bs)).
  split; [apply hexdigest_identifier|].
  intros w. rewrite (bind_returns _ _ _ _ _ (Hbs w)). unfold ret.
  rewrite slice_to_64; [reflexivity|].
  pose proof (hexdigest_identifier (SHA256.sha256 bs)) as H.
  apply andb_true_iff in H as [H _]. now apply Nat.eqb_eq.
Qed.

(** Canonicalise, hash, render.  On a serialisable object the three
    steps return an identifier; on any other the first step raises and
    the other two are not reached. *)
Lemma hash_of_json float_repr limit nesting data :
  if serialisable limit (S nesting) data
  then exists dna,
         is_identifier dna = true
         /\ forall w,
              (json_str <- lift (json_dumps float_repr limit nesting data) ;;
               bytes <- str_encode json_str ;;
               ret (slice_to (SHA256.hexdigest (SHA256.sha256 bytes)) 64)) w
              = (Returns dna, w)
  else exists e,
         serialisation_error limit e
         /\ forall w,
              (json_str <- lift (json_dumps float_repr limit nesting data) ;;
               bytes <- str_encode json_str ;;
               ret (slice_to (SHA256.hexdigest (SHA256.sha256 bytes)) 64)) w
              = (Raises e, w).
Proof.
  unfold json_dumps.
  destruct (serialisable limit (S nesting) data) eqn:Hdata.
  - apply (json_encode_returns_iff float_repr) in Hdata as [text Htext].
    destruct (hash_of_text text (json_encode_narrow _ _ _ _ _ Htext))
      as (dna & Hid & Hrun).
    exists dna. split; [exact Hid|]. intros w. rewrite Htext. apply Hrun.
  - destruct (json_encode float_repr limit (S nesting) data) as [text|e] eqn:E.
    + assert (H : serialisable limit (S nesting) data = true)
        by (apply (json_encode_returns_iff float_repr); eauto).
      congruence.
    + exists e. split; [apply (json_encode_raises _ _ _ _ _ E) | reflexivity].
Qed.

Lemma generate_dna_returns float_repr limit nesting prompt temperature top_p model :
  exists dna,
    is_identifier dna = true
    /\ forall w, generate_dna float_repr limit nesting prompt temperature top_p model w
                 = (Returns dna, w).
Proof.
  unfold generate_dna.
  exact (hash_of_json float_repr limit nesting
           (PyDict [ (str_of "prompt", PyStr prompt);
                     (str_of "temperature", PyFloat temperature);
                     (str_of "top_p", PyFloat top_p);
                     (str_of "model", PyStr model);
                     (str_of "version", PyStr (str_of "1.0")) ])).
Qed.



(** C1.  [generate_dna] is a function of its four arguments: there is
    one identifier that the call returns in every state of the random
    source, leaving that state as it found it; so two invocations in a
    row with the same arguments return the same identifier twice. *)
Theorem generate_dna_deterministic :
  forall float_repr int_max_str_digits nesting_limit prompt temperature top_p model,
  exists dna,
    (forall w, generate_dna float_repr int_max_str_digits nesting_limit
                 prompt temperature top_p model w
               = (Returns dna, w))
    /\ (forall w,
           (x <- generate_dna float_repr int_max_str_digits nesting_limit
                   prompt temperature top_p model ;;
            y <- generate_dna float_repr int_max_str_digits nesting_limit
                   prompt temperature top_p model ;;
            ret (x, y)) w
           = (Returns (dna, dna), w)).
Proof.
  intros float_repr limit nesting prompt temperature top_p model.
  destruct (generate_dna_returns float_repr limit nesting prompt temperature top_p model)
    as (dna & _ & Hrun).
  exists dna. split; [exact Hrun|].
  intros w. rewrite (bind_returns _ _ _ _ _ (Hrun w)).
  rewrite (bind_returns _ _ _ _ _ (Hrun w)). reflexivity.
Qed.

(** The same cannot be said of [mutate_dna]: two states of the random
    source give two results. *)
Example mutate_dna_depends_on_random_source :
  exists w1 w2,
    fst (mutate_dna ucd_sample (PyStr dna_ones) 0.5 w1)
    <> fst (mutate_dna ucd_sample (PyStr dna_ones) 0.5 w2).
Proof.
  exists world_sample, (World (fun _ => 0%N) 0).
  vm_compute. discriminate.
Qed.




(** The integer limit is on the digits: an integer of 4300 digits, with
    or without a sign, is printed. *)
Example generate_persona_dna_digit_limit :
  serialisable digits_sample nesting_sample
    (PyDict [ (str_of "n", PyInt (10 ^ 4300 - 1)); (str_of "m", PyInt (1 - 10 ^ 4300)) ])
  = true
  /\ serialisable digits_sample nesting_sample
       (PyDict [ (str_of "n", PyInt (10 ^ 4300)) ]) = false.
Proof. split; vm_compute; reflexivity. Qed.

(** A run checked against the reference implementation: a prompt with
    a quote, a line feed and characters beyond ASCII, and the identifier
    it hashes to. *)
Example generate_dna_sample :
  generate_dna float_repr_sample digits_sample nesting_sample
    (str_of "h" ++ [233%N] ++ str_of "llo " ++ [34%N] ++ str_of "w"
     ++ [34%N; 10%N; 128512%N; 127%N])
    0.7 0.9 (str_of "gpt-4") world_sample
  = (Returns
       (str_of "53347d801165dd00459103af3734e7f5103ad5bc4bffb833155f1bfc1b5949dd"),
     world_sample).
Proof. vm_compute. reflexivity. Qed.

(** The same for a persona whose traits nest a list and a dictionary. *)
Example generate_persona_dna_sample :
  generate_persona_dna float_repr_sample digits_sample nesting_sample (str_of "Bob")
    [ (str_of "mood", PyStr (str_of "calm"));
      (str_of "tags",
       PyList [PyInt 7; PyNone; PyBool true; PyInt (-12); PyList []; PyDict []]);
      (str_of "age", PyInt 0);
      (str_of "inner",
       PyDict [ (str_of "z", PyBool false);
                (str_of "a", PyStr [233%N; 9%N; 92%N; 128512%N]) ]) ]
    world_sample
  = (Returns
       (str_of "4f0a69479f6f010a422dabf8d520af0ba4b99e053498db3b27f2d7053ac2118d"),
     world_sample).
Proof. vm_compute. reflexivity. Qed.

(** SHA-256 on the standard test vectors. *)
Example sha256_abc :
  SHA256.hexdigest (SHA256.sha256 (map Z.of_N (str_of "abc")))
  = str_of "ba7816bf8f01cfea414140de5dae2223b00361a396177a9cb410ff61f20015ad".
Proof. vm_compute. reflexivity. Qed.

Example sha256_empty :
  SHA256.hexdigest (SHA256.sha256 [])
  = str_of "e3b0c44298fc1c149afbf4c8996fb92427ae41e4649b934ca495991b7852b855".
Proof. vm_compute. reflexivity. Qed.

(** So the JSON text of a dictionary, and with it the identifier, depends
    on its items and not on the order of its keys. *)
Lemma json_encode_key_order float_repr limit depth d1 d2 :
  NoDup d1.*1 -> d1 ≡ₚ d2 ->
  json_encode float_repr limit depth (PyDict d1)
  = json_encode float_repr limit depth (PyDict d2).
Proof.
  intros Hnd Hperm. destruct depth; cbn [json_encode]; [reflexivity|].
  now rewrite (sorted_items_canonical d1 d2 Hnd Hperm).
Qed.

(** * Further properties of the engine *)

(** ** What [validate_dna] lets through, and what it cannot *)

Ltac numeral_cases c :=
  destruct c as [|c]; [try reflexivity; try congruence|];
  do 7 (try (destruct c as [c|c|]; try reflexivity; try congruence)).

Lemma skip_spaces_foreign s :
  Exists (fun c => foreign c = true) s ->
  Exists (fun c => foreign c = true) (skip_spaces s).
Proof.
  induction s as [|c s IH]; simpl; intros H; [exact H|].
  destruct (Py_ISSPACE c) eqn:E; [|exact H].
  apply IH. inversion H as [? ? Hc | ? ? Hs]; subst; [|exact Hs].
  unfold foreign in Hc. rewrite E in Hc. discriminate.
Qed.

Lemma scan_digits_foreign s : forall prev acc z rest,
  scan_digits prev acc s = Some (z, rest) ->
  Exists (fun c => foreign c = true) s ->
  Exists (fun c => foreign c = true) rest.
Proof.
  induction s as [|c s IH]; intros prev acc z rest; simpl.
  - destruct (prev =? 95)%N; [discriminate|]. now intros [= _ <-].
  - destruct (N.eqb_spec c 95) as [-> | Hc].
    + destruct (prev =? 95)%N; [discriminate|].
      intros E H. apply (IH _ _ _ _ E).
      inversion H as [? ? Hf | ? ? Hs]; subst; [discriminate Hf | exact Hs].
    + destruct (digit_value c <? 16)%N eqn:Ed.
      * intros E H. apply (IH _ _ _ _ E).
        inversion H as [? ? Hf | ? ? Hs]; subst; [|exact Hs].
        unfold foreign in Hf. rewrite Ed, orb_true_r in Hf. discriminate.
      * destruct (prev =? 95)%N; [discriminate|]. now intros [= _ <-].
Qed.

Lemma transform_foreign ucd s :
  Exists (fun c => (c < 128)%N /\ foreign c = true) s ->
  Exists (fun c => foreign c = true) (transform_decimal_and_space ucd s).
Proof.
  induction 1 as [c s [Hlt Hf] | c s Hs IH]; simpl.
  - destruct (N.ltb_spec c 127) as [H | H]; [now left|].
    assert (c = 127%N) as -> by lia. now left.
  - destruct (c <? 127)%N; [now right|].
    destruct (Py_UNICODE_ISSPACE ucd c); [now right|].
    destruct (Py_UNICODE_TODECIMAL ucd c); [now right | now left].
Qed.

(** Once the sign is read: the optional prefix, the digits, the blanks,
    the end.  A foreign character anywhere makes it raise. *)
Lemma literal_body_foreign sign s2 :
  Exists (fun c => foreign c = true) s2 ->
  let s3 :=
    match s2 with
    | 48%N :: x :: r =>
        if ((x =? 120) || (x =? 88))%N
        then match r with 95%N :: r' => r' | _ => r end
        else s2
    | _ => s2
    end in
  match s3 with
  | 95%N :: _ => Raises invalid_literal
  | _ =>
      match scan_digits 0%N 0 s3 with
      | None => Raises invalid_literal
      | Some (z, rest) =>
          if (length rest =? length s3)%nat then Raises invalid_literal
          else match skip_spaces rest with
               | [] => Returns (sign * z)
               | _ :: _ => Raises invalid_literal
               end
      end
  end = Raises invalid_literal.
Proof.
  intros H2 s3.
  assert (H3 : Exists (fun c => foreign c = true) s3).
  { subst s3. destruct s2 as [|c [|x r]]; try exact H2.
    - numeral_cases c; exact H2.
    - destruct ((x =? 120) || (x =? 88))%N eqn:Ex.
      + assert (Hr : Exists (fun c => foreign c = true) r
                     \/ match c with 48%N => False | _ => True end).
        { destruct (N.eqb_spec c 48) as [-> | Hc].
          - left. inversion H2 as [? ? Hf | ? ? Hs]; subst; [discriminate Hf|].
            inversion Hs as [? ? Hf | ? ? Hr]; subst; [|exact Hr].
            apply orb_true_iff in Ex as [->%N.eqb_eq | ->%N.eqb_eq];
              discriminate Hf.
          - right. numeral_cases c; exact I. }
        destruct Hr as [Hr | Hc].
        * assert (Hr' : Exists (fun c => foreign c = true)
                          match r with 95%N :: r' => r' | _ => r end).
          { destruct r as [|u r']; [exact Hr|].
            destruct (N.eqb_spec u 95) as [-> | Hu].
            - inversion Hr as [? ? Hf | ? ? Hs]; subst; [discriminate Hf | exact Hs].
            - numeral_cases u; exact Hr. }
          numeral_cases c; first [exact Hr' | exact H2].
        * numeral_cases c; first [exact H2 | contradiction].
      + numeral_cases c; exact H2. }
  clearbody s3. clear H2 s2.
  assert (Hbody : match scan_digits 0%N 0 s3 with
                  | None => Raises invalid_literal
                  | Some (z, rest) =>
                      if (length rest =? length s3)%nat then Raises invalid_literal
                      else match skip_spaces rest with
                           | [] => Returns (sign * z)
                           | _ :: _ => Raises invalid_literal
                           end
                  end = Raises invalid_literal).
  { destruct (scan_digits 0%N 0 s3) as [[z rest]|] eqn:E; [|reflexivity].
    destruct (length rest =? length s3)%nat; [reflexivity|].
    pose proof (skip_spaces_foreign _ (scan_digits_foreign _ _ _ _ _ E H3)) as Hs.
    destruct (skip_spaces rest); [inversion Hs | reflexivity]. }
  destruct s3 as [|c r]; [exact Hbody|].
  numeral_cases c; exact Hbody.
Qed.

Lemma int_base16_foreign ucd s :
  Exists (fun c => (c < 128)%N /\ foreign c = true) s ->
  int_base16 ucd s = Raises invalid_literal.
Proof.
  intros H. unfold int_base16.
  pose proof (skip_spaces_foreign _ (transform_foreign ucd s H)) as H1.
  destruct (skip_spaces (transform_decimal_and_space ucd s)) as [|c r];
    [inversion H1|].
  destruct (N.eqb_spec c 43) as [-> | H43].
  { apply (literal_body_foreign 1 r).
    inversion H1 as [? ? Hf | ? ? Hs]; subst; [discriminate Hf | exact Hs]. }
  destruct (N.eqb_spec c 45) as [-> | H45].
  { apply (literal_body_foreign (-1) r).
    inversion H1 as [? ? Hf | ? ? Hs]; subst; [discriminate Hf | exact Hs]. }
  assert (Hsign : match c :: r with
                  | 43%N :: t => (1, t) | 45%N :: t => (-1, t) | _ => (1, c :: r)
                  end = (1, c :: r)).
  { numeral_cases c. }
  rewrite Hsign. apply (literal_body_foreign 1 (c :: r) H1).
Qed.

(** X1.  [validate_dna] rejects every string that holds an ASCII
    character (a code point from 0 to 127, the delete character
    included) other than a hex digit of either case, a blank, a sign, an
    underscore or the letter x: in a string that passes, every ASCII
    character is one of these. *)
Theorem validate_dna_rejects_foreign : forall ucd s,
  validate_dna ucd (PyStr s) = true ->
  Forall (fun c => (c < 128)%N -> foreign c = false) s.
Proof.
  intros ucd s H. apply Forall_forall. intros c Hc Hlt.
  destruct (foreign c) eqn:Hf; [|reflexivity].
  assert (Hex : Exists (fun c => (c < 128)%N /\ foreign c = true) s).
  { apply Exists_exists. eauto. }
  simpl in H. rewrite (int_base16_foreign ucd s Hex) in H.
  destruct (negb (length s =? 64)%nat); discriminate.
Qed.

Lemma validate_dna_rejects_foreign_witness :
  Forall (fun c => (c < 128)%N -> foreign c = false) dna_blanks.
Proof. apply (validate_dna_rejects_foreign ucd_sample). reflexivity. Defined.

(** Sixty-four times the letter g is rejected; the letter g, the full
    stop and the delete character are foreign, the hyphen, a sign, is
    not; the delete character followed by 63 digits is rejected whatever
    the character database says. *)
Example validate_dna_rejects_g :
  validate_dna ucd_sample (PyStr (str_mul (str_of "g") 64)) = false
  /\ foreign 103 = true /\ foreign 45 = false /\ foreign 46 = true
  /\ foreign 127 = true
  /\ forall ucd, validate_dna ucd (PyStr (127%N :: str_mul (str_of "a") 63)) = false.
Proof. repeat split. Qed.

Lemma hex_any_range c :
  hex_any c = true -> (48 <= c <= 57 \/ 97 <= c <= 102 \/ 65 <= c <= 70)%N.
Proof.
  unfold hex_any. intros [H%lower_hex_range | H]%orb_true_iff; [lia|].
  apply andb_true_iff in H as [H1%N.leb_le H2%N.leb_le]. lia.
Qed.

Lemma hex_any_digit c :
  hex_any c = true ->
  (digit_value c <? 16)%N = true /\ (c =? 95)%N = false
  /\ Py_ISSPACE c = false /\ (c =? 120)%N = false /\ (c =? 88)%N = false.
Proof.
  intros H%hex_any_range. unfold digit_value, Py_ISSPACE. repeat split.
  - apply N.ltb_lt.
    destruct (N.leb_spec 48 c), (N.leb_spec c 57), (N.leb_spec 97 c),
      (N.leb_spec c 122), (N.leb_spec 65 c), (N.leb_spec c 90); simpl; lia.
  - apply N.eqb_neq. lia.
  - destruct (N.leb_spec 9 c), (N.leb_spec c 13), (N.eqb_spec c 32); simpl; lia.
  - apply N.eqb_neq. lia.
  - apply N.eqb_neq. lia.
Qed.

Lemma scan_digits_hex_any s : forall prev acc,
  forallb hex_any s = true -> (prev =? 95)%N = false ->
  exists z, scan_digits prev acc s = Some (z, []).
Proof.
  induction s as [|c s IH]; intros prev acc Hs Hp; simpl.
  - rewrite Hp. eauto.
  - simpl in Hs. apply andb_true_iff in Hs as [Hc Hs].
    destruct (hex_any_digit c Hc) as (-> & E95 & _). rewrite E95.
    now apply IH.
Qed.

Lemma transform_hex_any ucd s :
  forallb hex_any s = true -> transform_decimal_and_space ucd s = s.
Proof.
  induction s as [|c s IH]; simpl; [reflexivity|].
  intros [Hc Hs]%andb_true_iff. apply hex_any_range in Hc.
  replace (c <? 127)%N with true by (symmetry; apply N.ltb_lt; lia).
  now rewrite IH.
Qed.

Lemma int_base16_hex_any ucd s :
  s <> [] -> forallb hex_any s = true -> exists z, int_base16 ucd s = Returns z.
Proof.
  intros Hne Hs. unfold int_base16. rewrite (transform_hex_any ucd s Hs).
  destruct s as [|c s]; [congruence|]. clear Hne.
  pose proof Hs as Hall.
  simpl in Hs. apply andb_true_iff in Hs as [Hc Hs].
  destruct (hex_any_digit c Hc) as (_ & Hc95 & Hsp & _).
  simpl skip_spaces. rewrite Hsp.
  pose proof (hex_any_range c Hc) as Hrange.
  assert (Hsign : match c :: s with
                  | 43%N :: r => (1, r) | 45%N :: r => (-1, r) | _ => (1, c :: s)
                  end = (1, c :: s)).
  { assert (c <> 43%N /\ c <> 45%N) as [? ?] by lia. numeral_cases c. }
  rewrite Hsign.
  assert (Hpre : match c :: s with
                 | 48%N :: x :: r =>
                     if ((x =? 120) || (x =? 88))%N
                     then match r with 95%N :: r' => r' | _ => r end
                     else c :: s
                 | _ => c :: s
                 end = c :: s).
  { destruct s as [|x r].
    - numeral_cases c.
    - simpl in Hs. apply andb_true_iff in Hs as [Hx _].
      destruct (hex_any_digit x Hx) as (_ & _ & _ & -> & ->).
      numeral_cases c. }
  rewrite Hpre.
  destruct (scan_digits_hex_any (c :: s) 0%N 0 Hall eq_refl) as [z Hz].
  rewrite Hz. apply N.eqb_neq in Hc95.
  assert (Hgoal : match skip_spaces [] with
                  | [] => Returns (1 * z)
                  | _ :: _ => @Raises Z invalid_literal
                  end = Returns (1 * z)) by reflexivity.
  cbn [length Nat.eqb].
  numeral_cases c; eauto.
Qed.

(** X2.  [validate_dna] does not tell the case of a hex digit: every
    string of 64 characters that are all digits [0-9], [a-f] or [A-F]
    passes. *)
Theorem validate_dna_either_case : forall ucd s,
  length s = 64%nat -> forallb hex_any s = true ->
  validate_dna ucd (PyStr s) = true.
Proof.
  intros ucd s Hlen Hs. simpl. rewrite Hlen. simpl.
  destruct (int_base16_hex_any ucd s) as [z ->]; auto.
  intros ->. discriminate.
Qed.

Lemma validate_dna_either_case_witness :
  validate_dna ucd_sample
    (PyStr (str_mul (str_of "aB") 16 ++ str_mul (str_of "F0") 16)) = true.
Proof. apply validate_dna_either_case; reflexivity. Defined.

(** ** Crossover *)

Lemma remix_dna_splice ucd a b cp w :
  validate_dna ucd (PyStr a) = true -> validate_dna ucd (PyStr b) = true ->
  remix_dna ucd (PyStr a) (PyStr b) cp w
  = (Returns (take (effective_point cp) a ++ drop (effective_point cp) b), w)
  /\ (1 <= effective_point cp <= 63)%nat
  /\ length a = 64%nat /\ length b = 64%nat.
Proof.
  intros Ha Hb. rewrite (remix_dna_valid ucd a b cp w Ha Hb).
  destruct (validate_dna_str ucd _ Ha) as (a' & [= <-] & Hla).
  destruct (validate_dna_str ucd _ Hb) as (b' & [= <-] & Hlb).
  repeat split; auto; unfold effective_point;
    destruct (Z.ltb_spec cp 1), (Z.geb_spec cp 64); simpl; lia.
Qed.

(** X3.  Crossing two well-formed identifiers gives a well-formed
    identifier, at every crossover point: [remix_dna] never raises on them
    and its result is 64 hex digits [0-9a-f], which [validate_dna]
    accepts. *)
Theorem remix_dna_closed : forall ucd a b cp w,
  is_identifier a = true -> is_identifier b = true ->
  exists r,
    remix_dna ucd (PyStr a) (PyStr b) cp w = (Returns r, w)
    /\ is_identifier r = true
    /\ validate_dna ucd (PyStr r) = true.
Proof.
  intros ucd a b cp w Ha Hb.
  destruct (remix_dna_identifier ucd a b cp w Ha Hb) as (r & Hr & Hid).
  exists r. auto using validate_dna_identifier.
Qed.

Lemma remix_dna_closed_witness :
  exists r,
    remix_dna ucd_sample (PyStr dna_ones) (PyStr dna_twos) 7 world_sample
    = (Returns r, world_sample)
    /\ is_identifier r = true
    /\ validate_dna ucd_sample (PyStr r) = true.
Proof. apply remix_dna_closed; reflexivity. Defined.

(** X4.  Crossing an identifier with itself gives it back, at every
    crossover point. *)
Theorem remix_dna_self : forall ucd a cp w,
  validate_dna ucd (PyStr a) = true ->
  remix_dna ucd (PyStr a) (PyStr a) cp w = (Returns a, w).
Proof.
  intros ucd a cp w Ha.
  destruct (remix_dna_splice ucd a a cp w Ha Ha) as (-> & _).
  now rewrite take_drop.
Qed.

Lemma remix_dna_self_witness :
  remix_dna ucd_sample (PyStr dna_blanks) (PyStr dna_blanks) 200 world_sample
  = (Returns dna_blanks, world_sample).
Proof. apply remix_dna_self. reflexivity. Defined.

(** X5.  Crossing back.  The two children of well-formed [a] and [b] at
    one point, [a]'s head with [b]'s tail and [b]'s head with [a]'s tail,
    crossed again at the same point, give the parents back: the first
    with the second gives [a], the second with the first gives [b]. *)
Theorem remix_dna_cross_back : forall ucd a b cp w,
  is_identifier a = true -> is_identifier b = true ->
  (r1 <- remix_dna ucd (PyStr a) (PyStr b) cp ;;
   r2 <- remix_dna ucd (PyStr b) (PyStr a) cp ;;
   remix_dna ucd (PyStr r1) (PyStr r2) cp) w = (Returns a, w)
  /\ (r1 <- remix_dna ucd (PyStr a) (PyStr b) cp ;;
      r2 <- remix_dna ucd (PyStr b) (PyStr a) cp ;;
      remix_dna ucd (PyStr r2) (PyStr r1) cp) w = (Returns b, w).
Proof.
  intros ucd a b cp w Ha Hb.
  destruct (remix_dna_identifier ucd a b cp w Ha Hb) as (r1 & Hr1 & Hid1).
  destruct (remix_dna_identifier ucd b a cp w Hb Ha) as (r2 & Hr2 & Hid2).
  pose proof (validate_dna_identifier ucd _ Ha) as Va.
  pose proof (validate_dna_identifier ucd _ Hb) as Vb.
  pose proof (validate_dna_identifier ucd _ Hid1) as V1.
  pose proof (validate_dna_identifier ucd _ Hid2) as V2.
  destruct (remix_dna_splice ucd a b cp w Va Vb) as (E1 & Hk & Hla & Hlb).
  destruct (remix_dna_splice ucd b a cp w Vb Va) as (E2 & _).
  assert (R1 : r1 = take (effective_point cp) a ++ drop (effective_point cp) b)
    by congruence.
  assert (R2 : r2 = take (effective_point cp) b ++ drop (effective_point cp) a)
    by congruence.
  rewrite !(bind_returns _ _ _ _ _ Hr1), !(bind_returns _ _ _ _ _ Hr2).
  destruct (remix_dna_splice ucd r1 r2 cp w V1 V2) as (-> & _).
  destruct (remix_dna_splice ucd r2 r1 cp w V2 V1) as (-> & _).
  subst r1 r2.
  rewrite !take_app_length', !drop_app_length' by (rewrite length_take; lia).
  now rewrite !take_drop.
Qed.

Lemma remix_dna_cross_back_witness :
  (r1 <- remix_dna ucd_sample (PyStr dna_ones) (PyStr dna_twos) 20 ;;
   r2 <- remix_dna ucd_sample (PyStr dna_twos) (PyStr dna_ones) 20 ;;
   remix_dna ucd_sample (PyStr r1) (PyStr r2) 20) world_sample
  = (Returns dna_ones, world_sample).
Proof.
  apply (remix_dna_cross_back ucd_sample dna_ones dna_twos 20 world_sample);
    reflexivity.
Defined.

Lemma hamming_app x1 : forall x2 y1 y2,
  length x1 = length x2 ->
  hamming (x1 ++ y1) (x2 ++ y2) = hamming x1 x2 + hamming y1 y2.
Proof.
  induction x1 as [|c x1 IH]; intros [|d x2] y1 y2 H; simpl in *;
    try discriminate; [reflexivity|].
  rewrite IH by lia. lia.
Qed.

Lemma hamming_refl a : hamming a a = 0.
Proof. induction a as [|c a IH]; simpl; [reflexivity|]. now rewrite N.eqb_refl, IH. Qed.

Lemma hamming_sym a : forall b, hamming a b = hamming b a.
Proof.
  induction a as [|c a IH]; intros [|d b]; simpl; try reflexivity.
  now rewrite IH, N.eqb_sym.
Qed.

(** X6.  A child stands between its parents: the number of positions
    where it differs from the one parent and the number where it differs
    from the other add up to the number of positions where the parents
    differ (the counts are those [analyze_dna_compatibility] makes). *)
Theorem remix_dna_between_parents : forall ucd a b cp w,
  validate_dna ucd (PyStr a) = true -> validate_dna ucd (PyStr b) = true ->
  exists r,
    remix_dna ucd (PyStr a) (PyStr b) cp w = (Returns r, w)
    /\ differences_of r a + differences_of r b = differences_of a b
    /\ 0 <= differences_of r a <= differences_of a b
    /\ 0 <= differences_of r b <= differences_of a b.
Proof.
  intros ucd a b cp w Ha Hb.
  destruct (remix_dna_splice ucd a b cp w Ha Hb) as (-> & Hk & Hla & Hlb).
  eexists. split; [reflexivity|].
  rewrite !differences_of_hamming.
  set (k := effective_point cp) in *.
  assert (E1 : hamming (take k a ++ drop k b) a = hamming (drop k b) (drop k a)).
  { transitivity (hamming (take k a ++ drop k b) (take k a ++ drop k a));
      [now rewrite take_drop|].
    rewrite hamming_app by reflexivity. rewrite hamming_refl. lia. }
  assert (E2 : hamming (take k a ++ drop k b) b = hamming (take k a) (take k b)).
  { transitivity (hamming (take k a ++ drop k b) (take k b ++ drop k b));
      [now rewrite take_drop|].
    rewrite hamming_app by (rewrite !length_take; lia).
    rewrite hamming_refl. lia. }
  assert (E3 : hamming a b = hamming (take k a) (take k b)
                             + hamming (drop k a) (drop k b)).
  { transitivity (hamming (take k a ++ drop k a) (take k b ++ drop k b));
      [now rewrite !take_drop|].
    apply hamming_app. rewrite !length_take. lia. }
  rewrite E1, E2, E3, (hamming_sym (drop k b)).
  pose proof (hamming_bounds (take k a) (take k b)).
  pose proof (hamming_bounds (drop k a) (drop k b)). lia.
Qed.

Lemma remix_dna_between_parents_witness :
  exists r,
    remix_dna ucd_sample (PyStr dna_ones) (PyStr dna_twos) 20 world_sample
    = (Returns r, world_sample)
    /\ differences_of r dna_ones + differences_of r dna_twos
       = differences_of dna_ones dna_twos
    /\ 0 <= differences_of r dna_ones <= differences_of dna_ones dna_twos
    /\ 0 <= differences_of r dna_twos <= differences_of dna_ones dna_twos.
Proof. apply remix_dna_between_parents; reflexivity. Defined.

(** ** Compatibility *)

(** The report on two inputs that pass [validate_dna], with the
    thresholds read as distances: the similarity exceeds 50 up to 31
    differences, 70 up to 19 and 40 up to 38. *)
Lemma analyze_dna_compatibility_valid ucd a b w :
  validate_dna ucd (PyStr a) = true -> validate_dna ucd (PyStr b) = true ->
  let d := hamming a b in
  0 <= d <= 64
  /\ analyze_dna_compatibility ucd (PyStr a) (PyStr b) w
     = (Returns
          (compatibility_report
             (float_of_Z (div_half_even ((64 - d) * 10000) 64) / 100)%float
             d
             (if d <=? 31 then 32 else 16)
             (patterns ucd a) (patterns ucd b)
             (if d <=? 19 then str_of "High"
              else if d <=? 38 then str_of "Medium"
              else str_of "Low")), w).
Proof.
  intros Ha Hb d.
  destruct (validate_dna_str ucd _ Ha) as (a' & [= <-] & Hla).
  pose proof (hamming_bounds a b) as Hd. rewrite Hla in Hd. fold d in Hd.
  split; [lia|].
  destruct (similarity_table d ltac:(lia)) as (Hr & H50 & H70 & H40 & _).
  unfold analyze_dna_compatibility. rewrite Ha, Hb. simpl negb. simpl orb.
  cbv iota. unfold expect_str, bind, ret.
  rewrite differences_of_hamming. fold d. rewrite Hr, H50, H70, H40.
  replace (50 * 64 <? (64 - d) * 100) with (d <=? 31)
    by (destruct (Z.leb_spec d 31), (Z.ltb_spec (50 * 64) ((64 - d) * 100)); lia).
  replace (70 * 64 <? (64 - d) * 100) with (d <=? 19)
    by (destruct (Z.leb_spec d 19), (Z.ltb_spec (70 * 64) ((64 - d) * 100)); lia).
  replace (40 * 64 <? (64 - d) * 100) with (d <=? 38)
    by (destruct (Z.leb_spec d 38), (Z.ltb_spec (40 * 64) ((64 - d) * 100)); lia).
  reflexivity.
Qed.

(** X7.  Compatibility is symmetric: on two inputs that pass
    [validate_dna], swapping them swaps the two pattern histograms and
    leaves the similarity, the differences, the recommended crossover
    point and the label as they are. *)
Theorem analyze_dna_compatibility_sym : forall ucd a b w,
  validate_dna ucd (PyStr a) = true -> validate_dna ucd (PyStr b) = true ->
  exists similarity differences recommended label,
    analyze_dna_compatibility ucd (PyStr a) (PyStr b) w
    = (Returns (compatibility_report similarity differences recommended
                  (patterns ucd a) (patterns ucd b) label), w)
    /\ analyze_dna_compatibility ucd (PyStr b) (PyStr a) w
       = (Returns (compatibility_report similarity differences recommended
                     (patterns ucd b) (patterns ucd a) label), w).
Proof.
  intros ucd a b w Ha Hb.
  destruct (analyze_dna_compatibility_valid ucd a b w Ha Hb) as [_ Eab].
  destruct (analyze_dna_compatibility_valid ucd b a w Hb Ha) as [_ Eba].
  rewrite (hamming_sym b a) in Eba.
  eexists _, _, _, _. split; [exact Eab | exact Eba].
Qed.

Lemma analyze_dna_compatibility_sym_witness :
  exists similarity differences recommended label,
    analyze_dna_compatibility ucd_sample (PyStr dna_ones) (PyStr dna_blanks)
      world_sample
    = (Returns (compatibility_report similarity differences recommended
                  (patterns ucd_sample dna_ones) (patterns ucd_sample dna_blanks)
                  label), world_sample)
    /\ analyze_dna_compatibility ucd_sample (PyStr dna_blanks) (PyStr dna_ones)
         world_sample
       = (Returns (compatibility_report similarity differences recommended
                     (patterns ucd_sample dna_blanks) (patterns ucd_sample dna_ones)
                     label), world_sample).
Proof. apply analyze_dna_compatibility_sym; reflexivity. Defined.

(** X8.  An input that passes [validate_dna] is fully compatible with
    itself: similarity 100.0, no differences, recommended crossover point
    32, label High. *)
Theorem analyze_dna_compatibility_self : forall ucd a w,
  validate_dna ucd (PyStr a) = true ->
  analyze_dna_compatibility ucd (PyStr a) (PyStr a) w
  = (Returns (compatibility_report 100 0 32 (patterns ucd a) (patterns ucd a)
                (str_of "High")), w).
Proof.
  intros ucd a w Ha.
  destruct (analyze_dna_compatibility_valid ucd a a w Ha Ha) as [_ E].
  rewrite hamming_refl in E. exact E.
Qed.

Lemma analyze_dna_compatibility_self_witness :
  analyze_dna_compatibility ucd_sample (PyStr dna_blanks) (PyStr dna_blanks)
    world_sample
  = (Returns (compatibility_report 100 0 32 (patterns ucd_sample dna_blanks)
                (patterns ucd_sample dna_blanks) (str_of "High")), world_sample).
Proof. apply analyze_dna_compatibility_self. reflexivity. Defined.

(** X9.  The thresholds as distances.  With [d] the number of positions
    where two inputs that pass [validate_dna] differ: the recommended
    crossover point is 32 up to 31 differences and 16 from 32 on; the
    label is High up to 19 differences, Medium from 20 to 38 and Low from
    39 on.  So a recommendation of 16 never comes with the label High. *)
Theorem analyze_dna_compatibility_by_distance : forall ucd a b w,
  validate_dna ucd (PyStr a) = true -> validate_dna ucd (PyStr b) = true ->
  exists similarity d,
    d = hamming a b /\ 0 <= d <= 64
    /\ analyze_dna_compatibility ucd (PyStr a) (PyStr b) w
       = (Returns
            (compatibility_report similarity d
               (if d <=? 31 then 32 else 16)
               (patterns ucd a) (patterns ucd b)
               (if d <=? 19 then str_of "High"
                else if d <=? 38 then str_of "Medium"
                else str_of "Low")), w).
Proof.
  intros ucd a b w Ha Hb.
  destruct (analyze_dna_compatibility_valid ucd a b w Ha Hb) as [Hd E].
  eexists _, _. split; [reflexivity|]. split; [exact Hd | exact E].
Qed.

Lemma analyze_dna_compatibility_by_distance_witness :
  exists similarity d,
    d = hamming dna_ones dna_twos /\ 0 <= d <= 64
    /\ analyze_dna_compatibility ucd_sample (PyStr dna_ones) (PyStr dna_twos)
         world_sample
       = (Returns
            (compatibility_report similarity d
               (if d <=? 31 then 32 else 16)
               (patterns ucd_sample dna_ones) (patterns ucd_sample dna_twos)
               (if d <=? 19 then str_of "High"
                else if d <=? 38 then str_of "Medium"
                else str_of "Low")), world_sample).
Proof. apply analyze_dna_compatibility_by_distance; reflexivity. Defined.

(** ** The pattern histograms *)

Lemma count_where_acc (p : N -> bool) (s : list N) : forall acc : Z,
  fold_left (fun (acc : Z) (c : N) => if p c then acc + 1 else acc) s acc
  = acc + count_where p s.
Proof.
  unfold count_where. induction s as [|c s IH]; intros acc; simpl; [lia|].
  rewrite IH, (IH (if p c then 0 + 1 else 0)). destruct (p c); lia.
Qed.

Lemma count_where_cons (p : N -> bool) c s :
  count_where p (c :: s) = (if p c then 1 else 0) + count_where p s.
Proof.
  unfold count_where at 1. simpl. rewrite count_where_acc. destruct (p c); lia.
Qed.

Lemma count_where_ext (p q : N -> bool) s :
  Forall (fun c => p c = q c) s -> count_where p s = count_where q s.
Proof.
  induction 1 as [|c s Hc Hs IH]; [reflexivity|].
  now rewrite !count_where_cons, Hc, IH.
Qed.

Lemma count_where_nonneg (p : N -> bool) s : 0 <= count_where p s.
Proof.
  induction s as [|c s IH]; [reflexivity|].
  rewrite count_where_cons. destruct (p c); lia.
Qed.

(** A hex digit falls in exactly one class, a vowel only if it is [a] or
    [e], a consonant only if it is [b], [c], [d] or [f]. *)
Lemma lower_hex_classes ucd c :
  lower_hex c = true ->
  (if char_in (str_of "aeiou") c then 1 else 0)
  + (if char_in (str_of "bcdfghjklmnpqrstvwxyz") c then 1 else 0)
  + (if isdigit ucd c then 1 else 0) = 1
  /\ char_in (str_of "aeiou") c = char_in (str_of "ae") c
  /\ char_in (str_of "bcdfghjklmnpqrstvwxyz") c = char_in (str_of "bcdf") c
  /\ isdigit ucd c = ((48 <=? c) && (c <=? 57))%N.
Proof.
  intros H%lower_hex_range.
  assert (Hc : In c [48; 49; 50; 51; 52; 53; 54; 55; 56; 57;
                     97; 98; 99; 100; 101; 102]%N).
  { assert (Hz : In (Z.of_N c) (map Z.of_nat (seq 0 103)))
      by (apply mod_in_range; lia).
    apply in_map_iff in Hz as (n & Hn & Hin). apply in_seq in Hin.
    assert (c = N.of_nat n) as -> by lia. clear Hn.
    do 48 (destruct n as [|n]; [lia|]).
    do 10 (destruct n as [|n]; [simpl; tauto|]).
    do 39 (destruct n as [|n]; [lia|]).
    do 6 (destruct n as [|n]; [simpl; tauto|]). lia. }
  simpl in Hc.
  repeat (destruct Hc as [<- | Hc]; [vm_compute; auto|]). contradiction.
Qed.

(** X10.  On a well-formed identifier the three counts of the histogram
    add up to 64: every character is counted once, as a vowel if it is
    [a] or [e], as a consonant if it is [b], [c], [d] or [f], as a number
    if it is a digit; the letters from [g] on never count. *)
Theorem patterns_partition : forall ucd a,
  is_identifier a = true ->
  exists vowels consonants numbers,
    patterns ucd a
    = PyDict [ (str_of "vowels", PyInt vowels);
               (str_of "consonants", PyInt consonants);
               (str_of "numbers", PyInt numbers) ]
    /\ vowels + consonants + numbers = 64
    /\ 0 <= vowels /\ 0 <= consonants /\ 0 <= numbers
    /\ vowels = count_where (char_in (str_of "ae")) a
    /\ consonants = count_where (char_in (str_of "bcdf")) a
    /\ numbers = count_where (fun c => (48 <=? c) && (c <=? 57))%N a.
Proof.
  intros ucd a [Hlen Ha]%andb_true_iff. apply Nat.eqb_eq in Hlen.
  eexists _, _, _. split; [reflexivity|].
  assert (Hall : Forall (fun c => lower_hex c = true) a).
  { apply Forall_forall. intros c Hc. rewrite forallb_forall in Ha.
    apply Ha. now apply list_elem_of_In. }
  clear Ha.
  repeat split; try apply count_where_nonneg.
  - replace 64 with (Z.of_nat (length a)) by lia. clear Hlen.
    induction Hall as [|c s Hc Hs IH]; [reflexivity|].
    rewrite !count_where_cons. cbn [length].
    destruct (lower_hex_classes ucd c Hc) as (H1 & _). lia.
  - apply count_where_ext. eapply Forall_impl; [exact Hall|].
    intros c Hc. apply (lower_hex_classes ucd c Hc).
  - apply count_where_ext. eapply Forall_impl; [exact Hall|].
    intros c Hc. apply (lower_hex_classes ucd c Hc).
  - apply count_where_ext. eapply Forall_impl; [exact Hall|].
    intros c Hc. apply (lower_hex_classes ucd c Hc).
Qed.

Lemma patterns_partition_witness :
  exists vowels consonants numbers,
    patterns ucd_sample (str_mul (str_of "0a1b2e3f") 8)
    = PyDict [ (str_of "vowels", PyInt vowels);
               (str_of "consonants", PyInt consonants);
               (str_of "numbers", PyInt numbers) ]
    /\ vowels + consonants + numbers = 64
    /\ 0 <= vowels /\ 0 <= consonants /\ 0 <= numbers
    /\ vowels = count_where (char_in (str_of "ae")) (str_mul (str_of "0a1b2e3f") 8)
    /\ consonants = count_where (char_in (str_of "bcdf")) (str_mul (str_of "0a1b2e3f") 8)
    /\ numbers = count_where (fun c => (48 <=? c) && (c <=? 57))%N
                   (str_mul (str_of "0a1b2e3f") 8).
Proof. apply patterns_partition. reflexivity. Defined.

(** ** Mutation *)

Lemma random_random_sf w :
  exists u, random_random w = (Returns u, World (tape w) (S (cursor w)))
            /\ sf_not_neg (Prim2SF u).
Proof.
  eexists. split; [reflexivity|].
  rewrite FloatAxioms.div_spec.
  change (Prim2SF 9007199254740992) with (S754_finite false 4503599627370496 1).
  apply SFdiv_not_neg, of_uint63_not_neg.
Qed.

(** Nothing that is not below zero is below a rate that is not above
    zero: a zero, a negative number, or a NaN. *)
Lemma SFltb_not_above_zero x y :
  sf_not_neg x -> SFltb (S754_zero false) y = false -> SFltb x y = false.
Proof.
  destruct x as [sx | sx | | sx mx ex], y as [sy | sy | | sy my ey];
    simpl; intros Hx Hy; subst; try reflexivity;
    try (destruct sy; try reflexivity; discriminate Hy);
    try (destruct sx; reflexivity).
Qed.

Lemma for_each_mutate_step_off rate range : forall l w,
  (0 <? rate)%float = false ->
  for_each (mutate_step rate) range l w
  = (Returns l, World (tape w) (cursor w + length range)).
Proof.
  intros l w Hrate. revert l w.
  induction range as [|i range IH]; intros l w; simpl.
  - unfold ret. destruct w; simpl. do 2 f_equal. lia.
  - destruct (random_random_sf w) as (u & Hu & Hsf).
    assert (Hlt : (u <? rate)%float = false).
    { rewrite FloatAxioms.ltb_spec in *.
      change (Prim2SF 0) with (S754_zero false) in Hrate.
      now apply SFltb_not_above_zero. }
    assert (Hstep : mutate_step rate l i w
                    = (Returns l, World (tape w) (S (cursor w)))).
    { unfold mutate_step. rewrite (bind_returns _ _ _ _ _ Hu).
      rewrite Hlt. reflexivity. }
    rewrite (bind_returns _ _ _ _ _ Hstep), IH. simpl. do 2 f_equal. lia.
Qed.

(** X11.  A mutation rate that is not above zero switches mutation off:
    with a rate of zero, a negative rate or a NaN, an input that passes
    [validate_dna] comes back unchanged whatever the random source draws,
    one draw having been made for each of the 64 positions. *)
Theorem mutate_dna_rate_off : forall ucd a rate w,
  validate_dna ucd (PyStr a) = true ->
  (0 <? rate)%float = false ->
  mutate_dna ucd (PyStr a) rate w
  = (Returns a, World (tape w) (cursor w + 64)).
Proof.
  intros ucd a rate w Ha Hrate. rewrite mutate_dna_valid by assumption.
  rewrite (bind_returns _ _ _ _ _ (for_each_mutate_step_off rate _ a w Hrate)).
  destruct (validate_dna_str ucd _ Ha) as (a' & [= <-] & Hla).
  unfold ret. now rewrite length_seq, Hla.
Qed.

Lemma mutate_dna_rate_off_witness :
  mutate_dna ucd_sample (PyStr dna_ones) nan world_sample
  = (Returns dna_ones, World (tape world_sample) (cursor world_sample + 64))
  /\ mutate_dna ucd_sample (PyStr dna_ones) (-0.25) world_sample
     = (Returns dna_ones, World (tape world_sample) (cursor world_sample + 64)).
Proof.
  split; apply (mutate_dna_rate_off ucd_sample dna_ones); reflexivity.
Defined.

(** The loop, position by position: a character of the result is the
    character the input has there or a hex digit; each turn makes one
    draw, and a second one when it mutates. *)
Lemma for_each_mutate_step_pointwise rate range : forall (l : list N) w,
  exists l' w',
    for_each (mutate_step rate) range l w = (Returns l', w')
    /\ length l' = length l
    /\ (forall i c, l' !! i = Some c -> l !! i = Some c \/ lower_hex c = true)
    /\ tape w' = tape w
    /\ (cursor w + length range <= cursor w' <= cursor w + 2 * length range)%nat.
Proof.
  induction range as [|j range IH]; intros l w; simpl.
  - exists l, w. unfold ret. repeat split; auto; lia.
  - destruct (random_random_sf w) as (u & Hu & _).
    assert (Hstep : exists l1 w1,
               mutate_step rate l j w = (Returns l1, w1)
               /\ length l1 = length l
               /\ (forall i c, l1 !! i = Some c ->
                               l !! i = Some c \/ lower_hex c = true)
               /\ tape w1 = tape w
               /\ (cursor w + 1 <= cursor w1 <= cursor w + 2)%nat).
    { unfold mutate_step. rewrite (bind_returns _ _ _ _ _ Hu).
      destruct (u <? rate)%float.
      - destruct (random_choice_hex (World (tape w) (S (cursor w))))
          as (h & Hh & Hhex).
        rewrite (bind_returns _ _ _ _ _ Hh). unfold ret.
        eexists _, _. split; [reflexivity|].
        split; [apply length_insert|].
        split; [|simpl; split; [reflexivity | lia]].
        intros i c Hi. destruct (decide (j = i)) as [-> | Hne].
        + destruct (decide (i < length l)%nat) as [Hlt | Hge].
          * rewrite list_lookup_insert_eq in Hi by assumption.
            right. congruence.
          * rewrite list_insert_ge in Hi by lia. now left.
        + rewrite list_lookup_insert_ne in Hi by assumption. now left.
      - unfold ret. eexists _, _. split; [reflexivity|].
        repeat split; simpl; auto; lia. }
    destruct Hstep as (l1 & w1 & Hstep & Hlen1 & Hpt1 & Ht1 & Hc1).
    destruct (IH l1 w1) as (l' & w' & Heq & Hlen & Hpt & Ht & Hc).
    exists l', w'. rewrite (bind_returns _ _ _ _ _ Hstep).
    split; [exact Heq|]. split; [congruence|].
    split; [|split; [congruence | lia]].
    intros i c Hi. destruct (Hpt i c Hi) as [H1 | H1]; [|now right].
    apply (Hpt1 i c H1).
Qed.

(** X12.  [mutate_dna] changes a position only into a hex digit: on an
    input that passes [validate_dna], at every rate and for every outcome
    of the random source, the result has 64 characters and each of them is
    the character the input has at that position or one of [0-9a-f].  The
    call makes between 64 and 128 draws. *)
Theorem mutate_dna_pointwise : forall ucd a rate w,
  validate_dna ucd (PyStr a) = true ->
  exists r w',
    mutate_dna ucd (PyStr a) rate w = (Returns r, w')
    /\ length r = 64%nat
    /\ (forall i c, r !! i = Some c -> a !! i = Some c \/ lower_hex c = true)
    /\ tape w' = tape w
    /\ (cursor w + 64 <= cursor w' <= cursor w + 128)%nat.
Proof.
  intros ucd a rate w Ha. rewrite mutate_dna_valid by assumption.
  destruct (validate_dna_str ucd _ Ha) as (a' & [= <-] & Hla).
  destruct (for_each_mutate_step_pointwise rate (seq 0 (length a)) a w)
    as (r & w' & Heq & Hlen & Hpt & Ht & Hc).
  exists r, w'. rewrite (bind_returns _ _ _ _ _ Heq).
  rewrite length_seq, Hla in Hc.
  split; [reflexivity|]. split; [congruence|]. repeat split; auto; lia.
Qed.

Lemma mutate_dna_pointwise_witness :
  exists r w',
    mutate_dna ucd_sample (PyStr dna_blanks) 0.5 world_sample = (Returns r, w')
    /\ length r = 64%nat
    /\ (forall i c, r !! i = Some c ->
                    dna_blanks !! i = Some c \/ lower_hex c = true)
    /\ tape w' = tape world_sample
    /\ (cursor world_sample + 64 <= cursor w' <= cursor world_sample + 128)%nat.
Proof. apply mutate_dna_pointwise. reflexivity. Defined.

(** X13.  Mutating a well-formed identifier gives a well-formed
    identifier, at every rate and for every outcome of the random source:
    [mutate_dna] never raises on it and its result is 64 hex digits
    [0-9a-f], which [validate_dna] accepts. *)
Theorem mutate_dna_closed : forall ucd a rate w,
  is_identifier a = true ->
  exists r w',
    mutate_dna ucd (PyStr a) rate w = (Returns r, w')
    /\ is_identifier r = true
    /\ validate_dna ucd (PyStr r) = true.
Proof.
  intros ucd a rate w Ha.
  destruct (mutate_dna_identifier ucd a rate w Ha) as (r & w' & Hr & Hid).
  exists r, w'. auto using validate_dna_identifier.
Qed.

Lemma mutate_dna_closed_witness :
  exists r w',
    mutate_dna ucd_sample (PyStr dna_ones) 0.5 world_sample = (Returns r, w')
    /\ is_identifier r = true
    /\ validate_dna ucd_sample (PyStr r) = true.
Proof. apply mutate_dna_closed. reflexivity. Defined.

(** ** Floats below one *)

(** A mantissa of 53 digits with an exponent in range is its own rounding. *)
Lemma binary_round_aux_exact s m e :
  digits2_pos m = 53%positive -> -1074 <= e <= 971 ->
  binary_round_aux prec emax s (Z.pos m) e loc_Exact = S754_finite s m e.
Proof.
  intros Hd He. unfold binary_round_aux, shr_fexp.
  cbn [Zdigits2 shr_record_of_loc]. rewrite Hd.
  assert (Hf : fexp prec emax (53 + e) - e = 0).
  { unfold fexp, emin, prec, emax. lia. }
  change (Z.sub (fexp prec emax (Z.add 53 e)) e) with (fexp prec emax (53 + e) - e).
  rewrite Hf. cbn [shr shr_m loc_of_shr_record round_nearest_even Zdigits2].
  rewrite ?Hd.
  change (Z.sub (fexp prec emax (Z.add 53 e)) e) with (fexp prec emax (53 + e) - e).
  rewrite Hf. cbn [shr shr_m].
  replace (Z.leb e (Z.sub emax prec)) with true; [reflexivity|].
  symmetry. apply Z.leb_le. unfold emax, prec. lia.
Qed.

Lemma binary_round_aux_halve s m e :
  digits2_pos m = 53%positive -> -1075 <= e <= 970 ->
  binary_round_aux prec emax s (Z.pos (xO m)) e loc_Exact = S754_finite s m (e + 1).
Proof.
  intros Hd He. unfold binary_round_aux, shr_fexp.
  cbn [Zdigits2 shr_record_of_loc digits2_pos]. rewrite Hd.
  assert (Hf : fexp prec emax (54 + e) - e = 1).
  { unfold fexp, emin, prec, emax. lia. }
  change (Z.sub (fexp prec emax (Z.add (Z.pos (Pos.succ 53)) e)) e)
    with (fexp prec emax (54 + e) - e).
  rewrite Hf. cbn [shr SpecFloat.iter_pos shr_1 orb shr_m loc_of_shr_record
                   round_nearest_even Zdigits2].
  rewrite ?Hd.
  assert (Hf' : fexp prec emax (53 + (e + 1)) - (e + 1) = 0).
  { unfold fexp, emin, prec, emax. lia. }
  change (Z.sub (fexp prec emax (Z.add 53 (Z.add e 1))) (Z.add e 1))
    with (fexp prec emax (53 + (e + 1)) - (e + 1)).
  rewrite Hf'. cbn [shr shr_m].
  replace (Z.leb (Z.add e 1) (Z.sub emax prec)) with true; [reflexivity|].
  symmetry. apply Z.leb_le. unfold emax, prec. lia.
Qed.

Lemma digits2_pos_lower p : 2 ^ (Z.pos (digits2_pos p) - 1) <= Z.pos p.
Proof.
  induction p as [p IH | p IH |]; cbn [digits2_pos]; [| |simpl; lia].
  - rewrite Pos2Z.inj_succ. replace (Z.succ (Z.pos (digits2_pos p)) - 1)
      with (Z.succ (Z.pos (digits2_pos p) - 1)) by lia.
    rewrite Z.pow_succ_r by lia. lia.
  - rewrite Pos2Z.inj_succ. replace (Z.succ (Z.pos (digits2_pos p)) - 1)
      with (Z.succ (Z.pos (digits2_pos p) - 1)) by lia.
    rewrite Z.pow_succ_r by lia. lia.
Qed.

Lemma digits2_pos_iter_xO p n :
  digits2_pos (Pos.iter xO p n) = (digits2_pos p + n)%positive.
Proof.
  induction n as [|n IH] using Pos.peano_ind.
  - simpl. lia.
  - rewrite Pos.iter_succ. cbn [digits2_pos]. rewrite IH. lia.
Qed.

(** An integer below 2^53 is a float: a mantissa of 53 digits and an
    exponent between -52 and 0. *)
Lemma binary_round_small p :
  Z.pos p < 2 ^ 53 ->
  exists m e, binary_round prec emax false p 0 = S754_finite false m e
              /\ digits2_pos m = 53%positive /\ -52 <= e <= 0.
Proof.
  intros Hp. pose proof (digits2_pos_lower p) as Hlow.
  assert (Hd : Z.pos (digits2_pos p) <= 53).
  { destruct (Z.le_gt_cases (Z.pos (digits2_pos p)) 53) as [H|H]; [exact H|].
    assert (2 ^ 53 <= 2 ^ (Z.pos (digits2_pos p) - 1))
      by (apply Z.pow_le_mono_r; lia). lia. }
  unfold binary_round, shl_align.
  assert (Hf : fexp prec emax (Z.pos (digits2_pos p) + 0) - 0
               = Z.pos (digits2_pos p) - 53).
  { unfold fexp, emin, prec, emax. lia. }
  change (Z.sub (fexp prec emax (Z.add (Z.pos (digits2_pos p)) 0)) 0)
    with (fexp prec emax (Z.pos (digits2_pos p) + 0) - 0).
  rewrite Hf.
  destruct (Z.pos (digits2_pos p) - 53) as [|q|q] eqn:E; [| lia |].
  - exists p, 0. rewrite binary_round_aux_exact by lia. repeat split; lia.
  - assert (Hfe : fexp prec emax (Z.pos (digits2_pos p) + 0) = Z.neg q)
      by (unfold fexp, emin, prec, emax; lia).
    change (Z.add (Z.pos (digits2_pos p)) 0) with (Z.pos (digits2_pos p) + 0).
    rewrite Hfe.
    assert (Hdig : digits2_pos (Pos.iter xO p q) = 53%positive)
      by (rewrite digits2_pos_iter_xO; lia).
    exists (Pos.iter xO p q), (Z.neg q).
    rewrite binary_round_aux_exact by (auto; lia). repeat split; auto; lia.
Qed.

Lemma SFdiv_core_two_53 m e :
  digits2_pos m = 53%positive -> -52 <= e <= 0 ->
  SFdiv_core_binary prec emax (Z.pos m) e 4503599627370496 1
  = (Z.pos (xO m), e - 54, loc_Exact).
Proof.
  intros Hd He. unfold SFdiv_core_binary.
  cbn [Zdigits2]. rewrite Hd.
  change (digits2_pos 4503599627370496) with 53%positive.
  assert (Hmin : Z.min (fexp prec emax (Z.sub (Z.add 53 e) (Z.add 53 1)))
                       (Z.sub e 1) = e - 54).
  { unfold fexp, emin, prec, emax. lia. }
  rewrite Hmin.
  replace (Z.sub (Z.sub e 1) (e - 54)) with 53 by lia.
  cbv beta iota zeta.
  pose proof (Z.div_eucl_eq (Z.shiftl (Z.pos m) 53) 4503599627370496 ltac:(lia)) as Heq.
  pose proof (Z.mod_pos_bound (Z.shiftl (Z.pos m) 53) 4503599627370496 ltac:(lia)) as Hb.
  unfold Z.modulo in Hb.
  destruct (Z.div_eucl (Z.shiftl (Z.pos m) 53) 4503599627370496) as [q r].
  rewrite Z.shiftl_mul_pow2 in Heq by lia.
  change (2 ^ 53) with (4503599627370496 * 2) in Heq.
  assert (q = Z.pos (xO m)) by lia. assert (r = 0) by lia.
  subst. reflexivity.
Qed.

Lemma SFdiv_two_53 m e :
  digits2_pos m = 53%positive -> -52 <= e <= 0 ->
  SFdiv prec emax (S754_finite false m e) (S754_finite false 4503599627370496 1)
  = S754_finite false m (e - 53).
Proof.
  intros Hd He. unfold SFdiv.
  rewrite (SFdiv_core_two_53 m e Hd He). cbn [xorb].
  rewrite binary_round_aux_halve by (auto; lia).
  f_equal. lia.
Qed.

(** [random.random()] is below every rate from 1.0 on. *)
Lemma SFltb_below_one x y :
  (x = S754_zero false
   \/ exists m e, x = S754_finite false m e /\ e <= -53) ->
  SFleb (S754_finite false 4503599627370496 (-52)) y = true ->
  SFltb x y = true.
Proof.
  intros Hx Hy.
  destruct y as [sy | sy | | sy my ey]; try discriminate Hy.
  - destruct sy; [discriminate Hy|].
    destruct Hx as [-> | (m & e & -> & _)]; reflexivity.
  - destruct sy; [discriminate Hy|].
    assert (He : -52 <= ey).
    { unfold SFleb, SFcompare in Hy.
      destruct (Z.compare_spec (-52) ey); [lia | lia | discriminate Hy]. }
    destruct Hx as [-> | (m & e & -> & Hle)]; [reflexivity|].
    unfold SFltb, SFcompare.
    destruct (Z.compare_spec e ey); [lia | reflexivity | lia].
Qed.

Lemma random_random_below_one w :
  exists u, random_random w = (Returns u, World (tape w) (S (cursor w)))
            /\ forall rate, (1 <=? rate)%float = true -> (u <? rate)%float = true.
Proof.
  eexists. split; [reflexivity|].
  intros rate Hrate.
  rewrite FloatAxioms.leb_spec in Hrate.
  change (Prim2SF 1) with (S754_finite false 4503599627370496 (-52)) in Hrate.
  rewrite FloatAxioms.ltb_spec. apply SFltb_below_one; [|exact Hrate].
  rewrite FloatAxioms.div_spec, FloatAxioms.of_uint63_spec.
  change (Prim2SF 9007199254740992) with (S754_finite false 4503599627370496 1).
  pose proof (Z.mod_pos_bound (Z.of_N (tape w (cursor w))) 9007199254740992
                ltac:(lia)) as Hk.
  rewrite Uint63.of_Z_spec.
  rewrite (Z.mod_small _ wB)
    by (change wB with 9223372036854775808; lia).
  destruct (Z.of_N (tape w (cursor w)) mod 9007199254740992) as [|p|p];
    [left; reflexivity | right | lia].
  destruct (binary_round_small p ltac:(lia)) as (m & e & Hm & Hd & He).
  cbn [binary_normalize]. rewrite Hm.
  exists m, (e - 53). split; [|lia].
  now apply SFdiv_two_53.
Qed.

(** From a rate of 1.0 on every turn of the loop mutates: the positions
    it visits end up as hex digits, at the price of two draws each. *)
Lemma for_each_mutate_step_all rate n : forall i (l : list N) w,
  (1 <=? rate)%float = true ->
  exists l',
    for_each (mutate_step rate) (seq i n) l w
    = (Returns l', World (tape w) (cursor w + 2 * n))
    /\ length l' = length l
    /\ (forall j, (j < i)%nat -> l' !! j = l !! j)
    /\ (forall j c, (i <= j < i + n)%nat -> l' !! j = Some c -> lower_hex c = true).
Proof.
  induction n as [|n IH]; intros i l w Hrate; cbn [seq for_each].
  - exists l. unfold ret. destruct w; simpl.
    repeat split; [do 2 f_equal; lia | lia].
  - destruct (random_random_below_one w) as (u & Hu & Hlt).
    destruct (random_choice_hex (World (tape w) (S (cursor w))))
      as (h & Hh & Hhex).
    assert (Hstep : mutate_step rate l i w
                    = (Returns (<[i := h]> l),
                       World (tape w) (S (S (cursor w))))).
    { unfold mutate_step. rewrite (bind_returns _ _ _ _ _ Hu).
      rewrite (Hlt rate Hrate). rewrite (bind_returns _ _ _ _ _ Hh).
      reflexivity. }
    destruct (IH (S i) (<[i := h]> l) (World (tape w) (S (S (cursor w)))) Hrate)
      as (l' & Heq & Hlen & Hbefore & Hafter).
    exists l'. rewrite (bind_returns _ _ _ _ _ Hstep), Heq.
    cbn [tape cursor]. rewrite length_insert in Hlen.
    split; [do 2 f_equal; lia|]. split; [exact Hlen|]. split.
    + intros j Hj. rewrite Hbefore by lia.
      apply list_lookup_insert_ne. lia.
    + intros j c Hj Hc. destruct (decide (j = i)) as [-> | Hne].
      * rewrite Hbefore in Hc by lia.
        destruct (decide (i < length l)%nat) as [Hin | Hout].
        -- rewrite list_lookup_insert_eq in Hc by assumption. congruence.
        -- rewrite list_insert_ge in Hc by lia.
           apply lookup_lt_Some in Hc. lia.
      * apply (Hafter j c); [lia | exact Hc].
Qed.

(** X14.  From a mutation rate of 1.0 on every position is replaced: on
    any input that passes [validate_dna], well-formed or not, and for
    every outcome of the random source, the result is a well-formed
    identifier, 64 hex digits [0-9a-f], after 128 draws. *)
Theorem mutate_dna_rate_full : forall ucd a rate w,
  validate_dna ucd (PyStr a) = true ->
  (1 <=? rate)%float = true ->
  exists r,
    mutate_dna ucd (PyStr a) rate w
    = (Returns r, World (tape w) (cursor w + 128))
    /\ is_identifier r = true.
Proof.
  intros ucd a rate w Ha Hrate. rewrite mutate_dna_valid by assumption.
  destruct (validate_dna_str ucd _ Ha) as (a' & [= <-] & Hla).
  destruct (for_each_mutate_step_all rate (length a) 0 a w Hrate)
    as (r & Heq & Hlen & _ & Hall).
  exists r. rewrite (bind_returns _ _ _ _ _ Heq). unfold ret.
  rewrite Hla in *. split; [reflexivity|].
  unfold is_identifier. rewrite Hlen. simpl.
  apply forallb_forall. intros c Hc.
  apply list_elem_of_In, list_elem_of_lookup in Hc as [j Hj].
  apply (Hall j c); [|exact Hj].
  apply lookup_lt_Some in Hj. lia.
Qed.

Lemma mutate_dna_rate_full_witness :
  exists r,
    mutate_dna ucd_sample (PyStr dna_blanks) 1 world_sample
    = (Returns r, World (tape world_sample) (cursor world_sample + 128))
    /\ is_identifier r = true.
Proof. apply mutate_dna_rate_full; reflexivity. Defined.

(** ** Decoding *)

Lemma ord_sum_acc s : forall acc,
  fold_left (fun acc c => acc + Z.of_N c) s acc = acc + ord_sum s.
Proof.
  unfold ord_sum. induction s as [|c s IH]; intros acc; simpl; [lia|].
  rewrite IH, (IH (0 + Z.of_N c)). lia.
Qed.

Lemma ord_sum_cons c s : ord_sum (c :: s) = Z.of_N c + ord_sum s.
Proof. unfold ord_sum at 1. simpl. now rewrite ord_sum_acc. Qed.

Lemma ord_sum_Permutation s s' : s ≡ₚ s' -> ord_sum s = ord_sum s'.
Proof.
  induction 1 as [| c s s' _ IH | c d s | s s' s'' _ IH1 _ IH2];
    rewrite ?ord_sum_cons; lia.
Qed.

(** X15.  Decoding what was generated: [decode_dna] never raises on the
    identifier [generate_dna] returns, and the estimate it gives is read
    off the identifier alone, its character sum and its first character,
    a hex digit; it returns the identifier with the estimate. *)
Theorem decode_generated_dna :
  forall float_repr int_max_str_digits nesting_limit prompt temperature top_p model w,
  exists dna c,
    generate_dna float_repr int_max_str_digits nesting_limit
      prompt temperature top_p model w = (Returns dna, w)
    /\ head dna = Some c /\ lower_hex c = true
    /\ (d <- generate_dna float_repr int_max_str_digits nesting_limit
               prompt temperature top_p model ;;
        decode_dna d) w
       = (Returns
            (PyDict
               [ (str_of "temperature",
                  PyFloat (float_of_Z (1 + ord_sum dna mod 20) / 10)%float);
                 (str_of "top_p",
                  PyFloat (float_of_Z (1 + ord_sum dna mod 9) / 10)%float);
                 (str_of "model", PyStr (model_for c));
                 (str_of "dna", PyStr dna);
                 (str_of "note",
                  PyStr (str_of "Parameters estimated from DNA pattern")) ]),
          w).
Proof.
  intros float_repr limit nesting prompt temperature top_p model w.
  destruct (generate_dna_returns float_repr limit nesting
              prompt temperature top_p model) as (dna & Hid & Hrun).
  apply andb_true_iff in Hid as [Hlen Hall].
  destruct dna as [|c s]; [discriminate|].
  simpl in Hall. apply andb_true_iff in Hall as [Hc _].
  exists (c :: s), c. split; [apply Hrun|]. split; [reflexivity|].
  split; [exact Hc|].
  rewrite (bind_returns _ _ _ _ _ (Hrun w)). apply decode_dna_nonempty.
Qed.

(** X16.  [decode_dna] does not see the order of the characters after
    the first: two strings with the same first character whose remaining
    characters are a rearrangement of each other get the same
    temperature, top_p and model. *)
Theorem decode_dna_rearranged : forall c s s' w,
  s ≡ₚ s' ->
  exists temperature top_p model,
    decode_dna (c :: s) w
    = (Returns
         (PyDict
            [ (str_of "temperature", PyFloat temperature);
              (str_of "top_p", PyFloat top_p);
              (str_of "model", PyStr model);
              (str_of "dna", PyStr (c :: s));
              (str_of "note",
               PyStr (str_of "Parameters estimated from DNA pattern")) ]), w)
    /\ decode_dna (c :: s') w
       = (Returns
            (PyDict
               [ (str_of "temperature", PyFloat temperature);
                 (str_of "top_p", PyFloat top_p);
                 (str_of "model", PyStr model);
                 (str_of "dna", PyStr (c :: s'));
                 (str_of "note",
                  PyStr (str_of "Parameters estimated from DNA pattern")) ]), w).
Proof.
  intros c s s' w Hperm.
  eexists _, _, _. split; [apply decode_dna_nonempty|].
  rewrite decode_dna_nonempty, !ord_sum_cons.
  now rewrite (ord_sum_Permutation s s' Hperm).
Qed.

Lemma decode_dna_rearranged_witness :
  exists temperature top_p model,
    decode_dna (str_of "1ab") world_sample
    = (Returns
         (PyDict
            [ (str_of "temperature", PyFloat temperature);
              (str_of "top_p", PyFloat top_p);
              (str_of "model", PyStr model);
              (str_of "dna", PyStr (str_of "1ab"));
              (str_of "note",
               PyStr (str_of "Parameters estimated from DNA pattern")) ]),
       world_sample)
    /\ decode_dna (str_of "1ba") world_sample
       = (Returns
            (PyDict
               [ (str_of "temperature", PyFloat temperature);
                 (str_of "top_p", PyFloat top_p);
                 (str_of "model", PyStr model);
                 (str_of "dna", PyStr (str_of "1ba"));
                 (str_of "note",
                  PyStr (str_of "Parameters estimated from DNA pattern")) ]),
          world_sample).
Proof.
  apply (decode_dna_rearranged 49%N [97; 98]%N [98; 97]%N world_sample).
  apply Permutation_swap.
Defined.

(** ** Personas *)

(** X17.  The identifier of a persona does not depend on the order in
    which its traits were put in the dictionary: two trait dictionaries
    with the same items (and, as in any dictionary, no key twice) give the
    same identifier. *)
Theorem generate_persona_dna_trait_order :
  forall float_repr int_max_str_digits nesting_limit persona_name traits traits' w,
  NoDup traits.*1 -> traits ≡ₚ traits' ->
  generate_persona_dna float_repr int_max_str_digits nesting_limit
    persona_name traits w
  = generate_persona_dna float_repr int_max_str_digits nesting_limit
      persona_name traits' w.
Proof.
  intros float_repr limit nesting persona_name traits traits' w Hnd Hperm.
  unfold generate_persona_dna, json_dumps.
  assert (Hitems : forall x,
             sorted_items
               [ (str_of "persona", PyStr persona_name);
                 (str_of "traits", x);
                 (str_of "type", PyStr (str_of "persona_dna"));
                 (str_of "version", PyStr (str_of "1.0")) ]
             = [ (str_of "persona", PyStr persona_name);
                 (str_of "traits", x);
                 (str_of "type", PyStr (str_of "persona_dna"));
                 (str_of "version", PyStr (str_of "1.0")) ])
    by reflexivity.
  cbn [json_encode]. rewrite !Hitems. cbn [collect fst snd].
  now rewrite (json_encode_key_order float_repr limit nesting traits traits' Hnd Hperm).
Qed.

Lemma generate_persona_dna_trait_order_witness :
  generate_persona_dna float_repr_sample digits_sample nesting_sample (str_of "Bob")
    [ (str_of "mood", PyStr (str_of "calm")); (str_of "age", PyInt 30) ]
    world_sample
  = generate_persona_dna float_repr_sample digits_sample nesting_sample (str_of "Bob")
      [ (str_of "age", PyInt 30); (str_of "mood", PyStr (str_of "calm")) ]
      world_sample.
Proof.
  apply generate_persona_dna_trait_order.
  - apply (bool_decide_unpack (NoDup _)). reflexivity.
  - apply Permutation_swap.
Defined.

(** ** The server's inline fingerprint *)

Lemma str_encode_encodable s :
  forallb encodable s = true ->
  exists bs, forall w, str_encode s w = (Returns bs, w).
Proof.
  induction s as [|c s IH]; simpl.
  - exists []. reflexivity.
  - intros [Hc Hs]%andb_true_iff. destruct (IH Hs) as [bs Hbs].
    unfold encodable in Hc. destruct (utf8_char c) as [b|]; [|discriminate].
    exists (b ++ bs). intros w. now rewrite (bind_returns _ _ _ _ _ (Hbs w)).
Qed.

Lemma str_encode_not_encodable s :
  forallb encodable s = false ->
  forall w, str_encode s w
            = (Raises (UnicodeEncodeError (str_of "surrogates not allowed")), w).
Proof.
  induction s as [|c s IH]; simpl; [discriminate|].
  intros H w. unfold encodable in H at 1.
  destruct (utf8_char c) as [b|]; [|reflexivity].
  simpl in H. now rewrite (bind_raises _ _ _ _ _ (IH H w)).
Qed.

Lemma narrow_encodable s : Forall narrow s -> forallb encodable s = true.
Proof.
  induction 1 as [|c s Hc Hs IH]; simpl; [reflexivity|].
  rewrite IH, andb_true_r. unfold narrow in Hc. unfold encodable, utf8_char.
  destruct (Z.ltb_spec (Z.of_N c) 128); [reflexivity|].
  destruct (Z.ltb_spec (Z.of_N c) 2048); [reflexivity | lia].
Qed.

(** X18.  The server's own [generate_dna] reads the prompt up to its
    100th character only, and it can raise where the engine's cannot:
    when one of those 100 characters or a character of the model name is a
    surrogate, [encode()] raises [UnicodeEncodeError]; otherwise the call
    returns a well-formed identifier.  Either way two prompts that agree
    on their first 100 characters are treated alike. *)
Theorem server_generate_dna_outcome :
  forall float_str now prompt temp top_p model w,
  (forallb encodable (take 100 prompt ++ model) = true ->
   exists dna,
     server_generate_dna float_str now prompt temp top_p model w = (Returns dna, w)
     /\ is_identifier dna = true)
  /\ (forallb encodable (take 100 prompt ++ model) = false ->
      server_generate_dna float_str now prompt temp top_p model w
      = (Raises (UnicodeEncodeError (str_of "surrogates not allowed")), w))
  /\ (forall prompt',
         take 100 prompt' = take 100 prompt ->
         server_generate_dna float_str now prompt' temp top_p model w
         = server_generate_dna float_str now prompt temp top_p model w).
Proof.
  intros float_str now prompt temp top_p model w.
  assert (Hslice : forall p : list N, slice_to p 100 = take 100 p).
  { intros p. unfold slice_to, slice_bound.
    destruct (Z.ltb_spec 100 0); [lia|].
    destruct (Z.le_gt_cases 100 (Z.of_nat (length p))).
    - rewrite Z.min_l by lia. reflexivity.
    - rewrite Z.min_r by lia. rewrite Nat2Z.id, !take_ge by lia. reflexivity. }
  assert (Hsplit : forallb encodable
                     (slice_to prompt 100 ++ str_of "-" ++ str_of (float_str temp)
                      ++ str_of "-" ++ str_of (float_str top_p) ++ str_of "-"
                      ++ model ++ str_of "-" ++ str_of now)
                   = forallb encodable (take 100 prompt ++ model)).
  { rewrite Hslice, !forallb_app.
    rewrite !(narrow_encodable _ (str_of_narrow _)).
    now rewrite !andb_true_l, !andb_true_r. }
  repeat split.
  - intros H. rewrite <- Hsplit in H.
    destruct (str_encode_encodable _ H) as [bs Hbs].
    exists (SHA256.hexdigest (SHA256.sha256 bs)).
    unfold server_generate_dna. rewrite (bind_returns _ _ _ _ _ (Hbs w)).
    split; [reflexivity | apply hexdigest_identifier].
  - intros H. rewrite <- Hsplit in H. unfold server_generate_dna.
    now rewrite (bind_raises _ _ _ _ _ (str_encode_not_encodable _ H w)).
  - intros prompt' H. unfold server_generate_dna. now rewrite !Hslice, H.
Qed.

Lemma server_generate_dna_outcome_witness :
  (exists dna,
      server_generate_dna float_repr_sample "2026-01-01T00:00:00"
        (str_of "hello") 0.7 0.9 (str_of "gpt-4") world_sample
      = (Returns dna, world_sample)
      /\ is_identifier dna = true)
  /\ server_generate_dna float_repr_sample "2026-01-01T00:00:00"
       [104; 0xD800]%N 0.7 0.9 (str_of "gpt-4") world_sample
     = (Raises (UnicodeEncodeError (str_of "surrogates not allowed")), world_sample).
Proof.
  split.
  - apply (server_generate_dna_outcome float_repr_sample "2026-01-01T00:00:00"
             (str_of "hello") 0.7 0.9 (str_of "gpt-4") world_sample).
    reflexivity.
  - apply (server_generate_dna_outcome float_repr_sample "2026-01-01T00:00:00"
             [104; 0xD800]%N 0.7 0.9 (str_of "gpt-4") world_sample).
    reflexivity.
Defined.

(** ** How far a mutation goes *)

Lemma hamming_insert (a : list N) : forall (l : list N) i h,
  hamming a (<[i := h]> l) <= hamming a l + 1.
Proof.
  induction a as [|x a IH]; intros [|y l] [|i] h; simpl; try lia.
  - destruct (x =? h)%N, (x =? y)%N; lia.
  - specialize (IH l i h). lia.
Qed.

(** The loop changes at most as many positions as it makes second
    draws. *)
Lemma for_each_mutate_step_distance rate (a : list N) range : forall (l : list N) w,
  exists l' w',
    for_each (mutate_step rate) range l w = (Returns l', w')
    /\ (cursor w + length range <= cursor w')%nat
    /\ hamming a l' <= hamming a l
                       + Z.of_nat (cursor w' - cursor w - length range).
Proof.
  induction range as [|j range IH]; intros l w; simpl.
  - exists l, w. unfold ret. repeat split; lia.
  - destruct (random_random_sf w) as (u & Hu & _).
    assert (Hstep : exists l1 w1,
               mutate_step rate l j w = (Returns l1, w1)
               /\ (cursor w + 1 <= cursor w1)%nat
               /\ hamming a l1 <= hamming a l
                                  + Z.of_nat (cursor w1 - cursor w - 1)).
    { unfold mutate_step. rewrite (bind_returns _ _ _ _ _ Hu).
      destruct (u <? rate)%float.
      - destruct (random_choice_hex (World (tape w) (S (cursor w))))
          as (h & Hh & _).
        rewrite (bind_returns _ _ _ _ _ Hh). unfold ret.
        eexists _, _. split; [reflexivity|]. cbn [cursor].
        split; [lia|]. pose proof (hamming_insert a l j h). lia.
      - unfold ret. eexists _, _. split; [reflexivity|]. cbn [cursor].
        split; lia. }
    destruct Hstep as (l1 & w1 & Hstep & Hc1 & Hd1).
    destruct (IH l1 w1) as (l' & w' & Heq & Hc & Hd).
    exists l', w'. rewrite (bind_returns _ _ _ _ _ Hstep).
    split; [exact Heq|]. split; lia.
Qed.

(** X19.  A mutated identifier differs from its input in at most as many
    positions as replacements were drawn: on an input that passes
    [validate_dna], the number of differing positions (as
    [analyze_dna_compatibility] counts them) is at most the number of
    draws made beyond the 64 that decide, position by position, whether
    to mutate. *)
Theorem mutate_dna_distance : forall ucd a rate w,
  validate_dna ucd (PyStr a) = true ->
  exists r w',
    mutate_dna ucd (PyStr a) rate w = (Returns r, w')
    /\ (cursor w + 64 <= cursor w')%nat
    /\ 0 <= differences_of a r <= Z.of_nat (cursor w' - cursor w - 64).
Proof.
  intros ucd a rate w Ha. rewrite mutate_dna_valid by assumption.
  destruct (validate_dna_str ucd _ Ha) as (a' & [= <-] & Hla).
  destruct (for_each_mutate_step_distance rate a (seq 0 (length a)) a w)
    as (r & w' & Heq & Hc & Hd).
  exists r, w'. rewrite (bind_returns _ _ _ _ _ Heq).
  rewrite length_seq, Hla in *. rewrite hamming_refl in Hd.
  rewrite differences_of_hamming. pose proof (hamming_bounds a r).
  split; [reflexivity|]. split; lia.
Qed.

Lemma mutate_dna_distance_witness :
  exists r w',
    mutate_dna ucd_sample (PyStr dna_ones) 0.5 world_sample = (Returns r, w')
    /\ (cursor world_sample + 64 <= cursor w')%nat
    /\ 0 <= differences_of dna_ones r
       <= Z.of_nat (cursor w' - cursor world_sample - 64).
Proof. apply mutate_dna_distance. reflexivity. Defined.
